(** * SPIdev: register access over an SPI bus

    A shallow embedding of [SPIdev.cpp] / [SPIdev.h].  The class has only
    static data members and static member functions.  Every function below
    takes the static members as a record [g] and runs in a small monad that
    threads the bus: the device wired to it and the log of everything done
    on the pins and on the SPI peripheral.

    A call ends with a result, or in an access outside the buffer it was
    handed (undefined behaviour in C++), or not at all; the three cases are
    kept apart.  A buffer passed by pointer is the list of the units the
    caller owns from that address on, and a function that writes through a
    pointer returns the new content next to its C++ result.  Arguments are
    meant in the range of their C++ type; the statements say so where it
    matters. *)

From Stdlib Require Import ZArith List Bool Lia.
Import ListNotations.
Local Open Scope Z_scope.

(** ** Fixed-width integers

    [uint8_t], [int8_t] and [uint16_t] values are integers of [Z]; a
    conversion to one of these types is written out where the source has it
    (an assignment, a cast, an argument or a returned value).  Arithmetic on
    operands promoted to [int] is done in [Z]. *)

Definition wrap8 (z : Z) : Z := z mod 256.
Definition wrap16 (z : Z) : Z := z mod 65536.
Definition wrap_i8 (z : Z) : Z := (z + 128) mod 256 - 128.

(** Conversion of an integer to [bool]. *)
Definition to_bool (z : Z) : bool := negb (z =? 0).

(** [#define READ 0B10000000] *)
Definition READ : Z := 128.

(** ** What [Arduino.h] and [SPI.h] provide

    Neither header is part of the sources, so the constants they define are
    parameters of the development, and so are the type [SPISettings] and the
    device wired to the bus. *)

Class Wiring := {
  SPISettings : Type;
  LOW : Z;
  HIGH : Z;
  OUTPUT : Z;
  LSBFIRST : Z;
  MSBFIRST : Z
}.

(** The peripheral at the other end of the bus: it sees every level written
    to a pin and answers every byte clocked out with a byte of its own. *)
Class Device := {
  Dev : Type;
  dev_pin : Z -> Z -> Dev -> Dev;
  dev_transfer : Z -> Dev -> Z * Dev
}.

(** How a call ends: normally, by an access outside the buffer it was given
    (undefined behaviour in C++), or not at all. *)
Inductive outcome (A : Type) : Type :=
| Ok (a : A)
| Fault
| Diverge.
Arguments Ok {A} a.
Arguments Fault {A}.
Arguments Diverge {A}.

(** Element [n] of [l] replaced by [v]. *)
Fixpoint list_set (l : list Z) (n : nat) (v : Z) : list Z :=
  match l, n with
  | [], _ => []
  | _ :: l', O => v :: l'
  | x :: l', S n' => x :: list_set l' n' v
  end.

Definition in_bounds (l : list Z) (i : Z) : bool :=
  (0 <=? i) && (i <? Z.of_nat (length l)).

Section Model.

Context {W : Wiring} {D : Device}.

Inductive Event : Type :=
| PinMode (pin mode : Z)
| SPIBegin
| BeginTransaction (s : SPISettings)
| EndTransaction
| DigitalWrite (pin level : Z)
| Transfer (out inp : Z).

Record Bus : Type := mkBus {
  device : Dev;
  trace : list Event
}.

(** The static data members of the class. *)
Record Statics : Type := mkStatics {
  slave : Z;
  dataOrder : Z;
  settings : SPISettings;
  readTimeout : Z
}.

Definition M (A : Type) : Type := Bus -> outcome A * Bus.

Definition ret {A} (a : A) : M A := fun s => (Ok a, s).

Definition bind {A B} (m : M A) (k : A -> M B) : M B :=
  fun s =>
    match m s with
    | (Ok a, s') => k a s'
    | (Fault, s') => (Fault, s')
    | (Diverge, s') => (Diverge, s')
    end.

Definition fault {A} : M A := fun s => (Fault, s).
Definition diverge {A} : M A := fun s => (Diverge, s).

End Model.

Declare Scope spi_scope.
Delimit Scope spi_scope with spi.
Notation "'let*' x ':=' m 'in' k" := (bind m (fun x => k))
  (at level 10, x pattern, m at level 100, k at level 200) : spi_scope.
Notation "m ';;' k" := (bind m (fun _ => k))
  (at level 100, k at level 200, right associativity) : spi_scope.
Local Open Scope spi_scope.

Section Primitives.

Context {W : Wiring} {D : Device}.

Definition emit (e : Event) : M unit :=
  fun s => (Ok tt, mkBus (device s) (trace s ++ [e])).

(** [pinMode(pin, mode)] *)
Definition pinMode (pin mode : Z) : M unit := emit (PinMode pin mode).

(** [SPI.begin()] *)
Definition SPI_begin : M unit := emit SPIBegin.

(** [SPI.beginTransaction(settings)] *)
Definition SPI_beginTransaction (s : SPISettings) : M unit :=
  emit (BeginTransaction s).

(** [SPI.endTransaction()] *)
Definition SPI_endTransaction : M unit := emit EndTransaction.

(** [digitalWrite(pin, level)] *)
Definition digitalWrite (pin level : Z) : M unit :=
  fun s => (Ok tt, mkBus (dev_pin pin level (device s))
                         (trace s ++ [DigitalWrite pin level])).

(** [uint8_t SPI.transfer(uint8_t)]: the argument and the answer are bytes. *)
Definition SPI_transfer (out : Z) : M Z :=
  fun s =>
    let (r, d) := dev_transfer (wrap8 out) (device s) in
    (Ok (wrap8 r), mkBus d (trace s ++ [Transfer (wrap8 out) (wrap8 r)])).

(** [data[i]] read, and [data[i] = v]. *)
Definition load (data : list Z) (i : Z) : M Z :=
  if in_bounds data i then ret (nth (Z.to_nat i) data 0) else fault.

Definition store (data : list Z) (i v : Z) : M (list Z) :=
  if in_bounds data i then ret (list_set data (Z.to_nat i) v) else fault.

End Primitives.

(** ** The class [SPIdev] *)

Section SPIdev.

Context {W : Wiring} {D : Device}.

(** The read loops count in an [int8_t] and the write loops in a [uint8_t]:
    the counter, together with the phase flag of [readWords], takes at most
    512 values, and the loop condition depends on nothing else.  A loop that
    has not left after that many rounds is in a state it was in before and
    never leaves. *)
Definition loop_fuel : nat := 600.

(** [SPIdev::SPIdev(int8_t slavePin, SPISettings settings, uint8_t bitOrder)].
    The parameter [settings] hides the static member of the same name, so
    [settings = settings;] assigns the parameter to itself. *)
Definition SPIdev_ctor (slavePin : Z) (settings_arg : SPISettings)
    (bitOrder : Z) (g : Statics) : M Statics :=
  let g :=
    mkStatics (wrap8 slavePin) (dataOrder g) (settings g) (readTimeout g) in
  pinMode (slave g) OUTPUT ;;
  SPI_begin ;;
  let settings_arg := settings_arg in
  let g :=
    mkStatics (slave g) (wrap8 bitOrder) (settings g) (readTimeout g) in
  ret g.

(** *** Buffer-level operations *)

(** [for(; count < length; count++) data[count] = SPI.transfer(0x00);] *)
Fixpoint readBytes_loop (fuel : nat) (length count : Z) (data : list Z)
    : M (Z * list Z) :=
  match fuel with
  | O => diverge
  | S fuel' =>
      if count <? length then
        let* r := SPI_transfer 0 in
        let* data := store data count r in
        readBytes_loop fuel' length (wrap_i8 (count + 1)) data
      else ret (count, data)
  end.

(** [int8_t SPIdev::readBytes(uint8_t regAddr, uint8_t length, uint8_t *data)];
    the result is the returned count and the buffer as the call leaves it. *)
Definition readBytes (g : Statics) (regAddr length : Z) (data : list Z)
    : M (Z * list Z) :=
  let count := 0 in
  SPI_beginTransaction (settings g) ;;
  digitalWrite (slave g) LOW ;;
  SPI_transfer (Z.lor regAddr READ) ;;
  let* (count, data) := readBytes_loop loop_fuel length count data in
  digitalWrite (slave g) HIGH ;;
  SPI_endTransaction ;;
  ret (count, data).

(** The loop of [readWords]; [msb] is the local [bool msb]. *)
Fixpoint readWords_loop (fuel : nat) (length count : Z) (msb : bool)
    (data : list Z) : M (Z * list Z) :=
  match fuel with
  | O => diverge
  | S fuel' =>
      if count <? length then
        if Z.b2z msb =? MSBFIRST then
          let* r := SPI_transfer 0 in
          let* data := store data count (wrap16 (Z.shiftl r 8)) in
          readWords_loop fuel' length count (to_bool LSBFIRST) data
        else
          let* r := SPI_transfer 0 in
          let* w := load data count in
          let* data := store data count (wrap16 (Z.lor w r)) in
          readWords_loop fuel' length (wrap_i8 (count + 1))
            (to_bool MSBFIRST) data
      else ret (count, data)
  end.

(** [int8_t SPIdev::readWords(uint8_t regAddr, uint8_t length,
    uint16_t *data)] *)
Definition readWords (g : Statics) (regAddr length : Z) (data : list Z)
    : M (Z * list Z) :=
  let count := 0 in
  SPI_beginTransaction (settings g) ;;
  digitalWrite (slave g) LOW ;;
  let msb := to_bool (dataOrder g) in
  SPI_transfer (Z.lor regAddr READ) ;;
  let* (count, data) := readWords_loop loop_fuel length count msb data in
  digitalWrite (slave g) HIGH ;;
  SPI_endTransaction ;;
  ret (count, data).

(** [for (uint8_t i = 0; i < length; i++) SPI.transfer((uint8_t) data[i]);] *)
Fixpoint writeBytes_loop (fuel : nat) (length i : Z) (data : list Z) : M unit :=
  match fuel with
  | O => diverge
  | S fuel' =>
      if i <? length then
        let* v := load data i in
        SPI_transfer (wrap8 v) ;;
        writeBytes_loop fuel' length (wrap8 (i + 1)) data
      else ret tt
  end.

(** [bool SPIdev::writeBytes(uint8_t regAddr, uint8_t length, uint8_t* data)] *)
Definition writeBytes (g : Statics) (regAddr length : Z) (data : list Z)
    : M bool :=
  let status := 0 in
  SPI_beginTransaction (settings g) ;;
  digitalWrite (slave g) LOW ;;
  SPI_transfer regAddr ;;
  writeBytes_loop loop_fuel length 0 data ;;
  digitalWrite (slave g) HIGH ;;
  SPI_endTransaction ;;
  ret (status =? 0).

(** The loop of [writeWords]: the high byte, then the low byte. *)
Fixpoint writeWords_loop (fuel : nat) (length i : Z) (data : list Z) : M unit :=
  match fuel with
  | O => diverge
  | S fuel' =>
      if i <? length then
        let* v := load data i in
        SPI_transfer (wrap8 (Z.shiftr v 8)) ;;
        SPI_transfer (wrap8 v) ;;
        writeWords_loop fuel' length (wrap8 (i + 1)) data
      else ret tt
  end.

(** [bool SPIdev::writeWords(uint8_t regAddr, uint8_t length,
    uint16_t* data)] *)
Definition writeWords (g : Statics) (regAddr length : Z) (data : list Z)
    : M bool :=
  let status := 0 in
  SPI_beginTransaction (settings g) ;;
  digitalWrite (slave g) LOW ;;
  SPI_transfer regAddr ;;
  writeWords_loop loop_fuel length 0 data ;;
  digitalWrite (slave g) HIGH ;;
  SPI_endTransaction ;;
  ret (status =? 0).

(** *** Single units

    The reads take the address of one variable of the caller; [b0] and [w0]
    stand for what that variable holds before the call. *)

Definition readByte (g : Statics) (regAddr b0 : Z) : M (Z * Z) :=
  let* (count, data) := readBytes g regAddr 1 [b0] in
  ret (count, nth 0 data b0).

Definition readWord (g : Statics) (regAddr w0 : Z) : M (Z * Z) :=
  let* (count, data) := readWords g regAddr 1 [w0] in
  ret (count, nth 0 data w0).

Definition writeByte (g : Statics) (regAddr data : Z) : M bool :=
  writeBytes g regAddr 1 [data].

Definition writeWord (g : Statics) (regAddr data : Z) : M bool :=
  writeWords g regAddr 1 [data].

(** *** Bits

    A read returns the pair of the returned count and of what [*data] holds
    afterwards; [d0] is what [*data] held before.  The local [count] of the
    reads is a [uint8_t] and the returned value an [int8_t]. *)

Definition readBit (g : Statics) (regAddr bitNum b0 : Z) : M (Z * Z) :=
  let* (c, b) := readByte g regAddr b0 in
  let count := wrap8 c in
  let data := wrap8 (Z.land b (Z.shiftl 1 bitNum)) in
  ret (wrap_i8 count, data).

Definition readBitW (g : Statics) (regAddr bitNum w0 : Z) : M (Z * Z) :=
  let* (c, b) := readWord g regAddr w0 in
  let count := wrap8 c in
  let data := wrap16 (Z.land b (Z.shiftl 1 bitNum)) in
  ret (wrap_i8 count, data).

(** [((1 << length) - 1) << (bitStart - length + 1)] *)
Definition field_mask (bitStart length : Z) : Z :=
  Z.shiftl (Z.shiftl 1 length - 1) (bitStart - length + 1).

(** What [readBits] stores in [*data] when it has read [b]. *)
Definition extract_bits (bitStart length b : Z) : Z :=
  let mask := wrap8 (field_mask bitStart length) in
  let b := wrap8 (Z.land b mask) in
  let b := wrap8 (Z.shiftr b (bitStart - length + 1)) in
  b.

Definition extract_bitsW (bitStart length w : Z) : Z :=
  let mask := wrap16 (field_mask bitStart length) in
  let w := wrap16 (Z.land w mask) in
  let w := wrap16 (Z.shiftr w (bitStart - length + 1)) in
  w.

Definition readBits (g : Statics) (regAddr bitStart length d0 b0 : Z)
    : M (Z * Z) :=
  let* (c, b) := readByte g regAddr b0 in
  let count := wrap8 c in
  if negb (count =? 0) then
    ret (wrap_i8 count, extract_bits bitStart length b)
  else ret (wrap_i8 count, d0).

Definition readBitsW (g : Statics) (regAddr bitStart length d0 w0 : Z)
    : M (Z * Z) :=
  let* (c, w) := readWord g regAddr w0 in
  let count := wrap8 c in
  if negb (count =? 0) then
    ret (wrap_i8 count, extract_bitsW bitStart length w)
  else ret (wrap_i8 count, d0).

(** The read-modify-write functions are written over the single-unit read
    and write they call, [rd] and [wr]; the functions of the class are their
    instances at [readByte]/[writeByte] and [readWord]/[writeWord]. *)

Definition writeBit_over (rd : Z -> Z -> M (Z * Z)) (wr : Z -> Z -> M bool)
    (regAddr bitNum data b0 : Z) : M bool :=
  let* (_, b) := rd regAddr b0 in
  let b := wrap8 (if to_bool data then Z.lor b (Z.shiftl 1 bitNum)
                  else Z.land b (Z.lnot (Z.shiftl 1 bitNum))) in
  wr regAddr b.

Definition writeBitW_over (rd : Z -> Z -> M (Z * Z)) (wr : Z -> Z -> M bool)
    (regAddr bitNum data w0 : Z) : M bool :=
  let* (_, w) := rd regAddr w0 in
  let w := wrap16 (if to_bool data then Z.lor w (Z.shiftl 1 bitNum)
                   else Z.land w (Z.lnot (Z.shiftl 1 bitNum))) in
  wr regAddr w.

(** The byte [writeBits] writes back when it has read [b]. *)
Definition merge_bits (bitStart length data b : Z) : Z :=
  let mask := wrap8 (field_mask bitStart length) in
  let data := wrap8 (Z.shiftl data (bitStart - length + 1)) in
  let data := wrap8 (Z.land data mask) in
  let b := wrap8 (Z.land b (Z.lnot mask)) in
  wrap8 (Z.lor b data).

Definition merge_bitsW (bitStart length data w : Z) : Z :=
  let mask := wrap16 (field_mask bitStart length) in
  let data := wrap16 (Z.shiftl data (bitStart - length + 1)) in
  let data := wrap16 (Z.land data mask) in
  let w := wrap16 (Z.land w (Z.lnot mask)) in
  wrap16 (Z.lor w data).

Definition writeBits_over (rd : Z -> Z -> M (Z * Z)) (wr : Z -> Z -> M bool)
    (regAddr bitStart length data b0 : Z) : M bool :=
  let* (c, b) := rd regAddr b0 in
  if negb (c =? 0) then
    wr regAddr (merge_bits bitStart length data b)
  else ret false.

Definition writeBitsW_over (rd : Z -> Z -> M (Z * Z)) (wr : Z -> Z -> M bool)
    (regAddr bitStart length data w0 : Z) : M bool :=
  let* (c, w) := rd regAddr w0 in
  if negb (c =? 0) then
    wr regAddr (merge_bitsW bitStart length data w)
  else ret false.

Definition writeBit (g : Statics) : Z -> Z -> Z -> Z -> M bool :=
  writeBit_over (readByte g) (writeByte g).

Definition writeBitW (g : Statics) : Z -> Z -> Z -> Z -> M bool :=
  writeBitW_over (readWord g) (writeWord g).

Definition writeBits (g : Statics) : Z -> Z -> Z -> Z -> Z -> M bool :=
  writeBits_over (readByte g) (writeByte g).

Definition writeBitsW (g : Statics) : Z -> Z -> Z -> Z -> Z -> M bool :=
  writeBitsW_over (readWord g) (writeWord g).

(** *** The overloads with the call shape of I2Cdev

    Each takes a leading [devAddr] and, for the reads, a trailing [timeout]
    whose default argument is [SPIdev::readTimeout]; [None] is a call that
    leaves the argument out. *)

Definition timeout_arg (g : Statics) (timeout : option Z) : Z :=
  match timeout with
  | Some t => t
  | None => readTimeout g
  end.

Definition readBit_dev (g : Statics) (devAddr regAddr bitNum b0 : Z)
    (timeout : option Z) : M (Z * Z) :=
  let timeout := timeout_arg g timeout in
  readBit g regAddr bitNum b0.

Definition readBitW_dev (g : Statics) (devAddr regAddr bitNum w0 : Z)
    (timeout : option Z) : M (Z * Z) :=
  let timeout := timeout_arg g timeout in
  readBitW g regAddr bitNum w0.

Definition readBits_dev (g : Statics)
    (devAddr regAddr bitStart length d0 b0 : Z) (timeout : option Z)
    : M (Z * Z) :=
  let timeout := timeout_arg g timeout in
  readBits g regAddr bitStart length d0 b0.

Definition readBitsW_dev (g : Statics)
    (devAddr regAddr bitStart length d0 w0 : Z) (timeout : option Z)
    : M (Z * Z) :=
  let timeout := timeout_arg g timeout in
  readBitsW g regAddr bitStart length d0 w0.

Definition readByte_dev (g : Statics) (devAddr regAddr b0 : Z)
    (timeout : option Z) : M (Z * Z) :=
  let timeout := timeout_arg g timeout in
  readByte g regAddr b0.

Definition readWord_dev (g : Statics) (devAddr regAddr w0 : Z)
    (timeout : option Z) : M (Z * Z) :=
  let timeout := timeout_arg g timeout in
  readWord g regAddr w0.

Definition readBytes_dev (g : Statics) (devAddr regAddr length : Z)
    (data : list Z) (timeout : option Z) : M (Z * list Z) :=
  let timeout := timeout_arg g timeout in
  readBytes g regAddr length data.

Definition readWords_dev (g : Statics) (devAddr regAddr length : Z)
    (data : list Z) (timeout : option Z) : M (Z * list Z) :=
  let timeout := timeout_arg g timeout in
  readWords g regAddr length data.

Definition writeBit_dev (g : Statics) (devAddr regAddr bitNum data b0 : Z)
    : M bool :=
  writeBit g regAddr bitNum data b0.

Definition writeBitW_dev (g : Statics) (devAddr regAddr bitNum data w0 : Z)
    : M bool :=
  writeBitW g regAddr bitNum data w0.

Definition writeBits_dev (g : Statics)
    (devAddr regAddr bitStart length data b0 : Z) : M bool :=
  writeBits g regAddr bitStart length data b0.

Definition writeBitsW_dev (g : Statics)
    (devAddr regAddr bitStart length data w0 : Z) : M bool :=
  writeBitsW g regAddr bitStart length data w0.

Definition writeByte_dev (g : Statics) (devAddr regAddr data : Z) : M bool :=
  writeByte g regAddr data.

Definition writeWord_dev (g : Statics) (devAddr regAddr data : Z) : M bool :=
  writeWord g regAddr data.

Definition writeBytes_dev (g : Statics) (devAddr regAddr length : Z)
    (data : list Z) : M bool :=
  writeBytes g regAddr length data.

Definition writeWords_dev (g : Statics) (devAddr regAddr length : Z)
    (data : list Z) : M bool :=
  writeWords g regAddr length data.

End SPIdev.

(** ** Reading the log *)

Section Log.

Context {W : Wiring} {D : Device}.

(** What a computation adds to the log when run from [st]. *)
Definition emitted {A} (m : M A) (st : Bus) : list Event :=
  skipn (length (trace st)) (trace (snd (m st))).

(** The bytes clocked out, in order. *)
Definition sent (evs : list Event) : list Z :=
  flat_map (fun e => match e with Transfer out _ => [out] | _ => [] end) evs.

Definition is_transfer (e : Event) : bool :=
  match e with Transfer _ _ => true | _ => false end.

(** The bus after the bytes [outs] have been exchanged one after the other,
    and the log entries of these exchanges. *)
Fixpoint clock_out (outs : list Z) (st : Bus) : Bus :=
  match outs with
  | [] => st
  | o :: outs' => clock_out outs' (snd (SPI_transfer o st))
  end.

Fixpoint exchange (outs : list Z) (d : Dev) : list Event :=
  match outs with
  | [] => []
  | o :: outs' =>
      let (r, d') := dev_transfer (wrap8 o) d in
      Transfer (wrap8 o) (wrap8 r) :: exchange outs' d'
  end.

(** The bytes the device answers to [outs]. *)
Fixpoint answers (outs : list Z) (d : Dev) : list Z :=
  match outs with
  | [] => []
  | o :: outs' =>
      let (r, d') := dev_transfer (wrap8 o) d in
      wrap8 r :: answers outs' d'
  end.

(** One framed transaction: the bus is acquired with the settings of [g],
    the slave pin of [g] goes low, [outs] are exchanged, the pin goes high
    and the bus is released. *)
Definition framed (g : Statics) (outs : list Z) (st : Bus) : Bus :=
  let st := snd (SPI_beginTransaction (settings g) st) in
  let st := snd (digitalWrite (slave g) LOW st) in
  let st := clock_out outs st in
  let st := snd (digitalWrite (slave g) HIGH st) in
  snd (SPI_endTransaction st).

Definition framed_events (g : Statics) (outs : list Z) (d : Dev) : list Event :=
  [BeginTransaction (settings g); DigitalWrite (slave g) LOW]
  ++ exchange outs (dev_pin (slave g) LOW d)
  ++ [DigitalWrite (slave g) HIGH; EndTransaction].

(** A log that opens a transaction of [g] and has [a] as the first byte
    clocked out once the slave pin is low. *)
Definition address_first (g : Statics) (a : Z) (evs : list Event) : Prop :=
  exists r rest,
    evs = BeginTransaction (settings g) :: DigitalWrite (slave g) LOW
          :: Transfer a r :: rest.

(** The buffer [data] once the bytes [rs] have been stored from index [i]
    on. *)
Fixpoint store_all (data : list Z) (i : nat) (rs : list Z) : list Z :=
  match rs with
  | [] => data
  | r :: rs' => store_all (list_set data i r) (S i) rs'
  end.

(** The two bytes of each word, high byte first. *)
Definition bytes_of_words (ws : list Z) : list Z :=
  flat_map (fun w => [wrap8 (Z.shiftr w 8); wrap8 w]) ws.

(** A word put together the way the two branches of the loop of
    [readWords] do it when the high byte comes first, and the words made of
    the bytes [rs] taken two at a time. *)
Definition assemble (hi lo : Z) : Z :=
  wrap16 (Z.lor (wrap16 (Z.shiftl hi 8)) lo).

Fixpoint words_of_bytes (rs : list Z) : list Z :=
  match rs with
  | hi :: lo :: rs' => assemble hi lo :: words_of_bytes rs'
  | _ => []
  end.

(** The loop of [readWords] is entered with its flag in the phase that
    takes the high byte. *)
Definition msb_phase_at_entry (g : Statics) : Prop :=
  (Z.b2z (to_bool (dataOrder g)) =? MSBFIRST) = true.

(** A read of [n] words that is one framed transaction of the address and
    two bytes a word, and leaves in the buffer the words made of these
    bytes, high byte first. *)
Definition reads_high_byte_first (g : Statics) (regAddr n : Z)
    (data : list Z) (st : Bus) : Prop :=
  let outs := Z.lor regAddr READ :: repeat 0 (2 * Z.to_nat n) in
  let rs := tl (answers outs (dev_pin (slave g) LOW (device st))) in
  readWords g regAddr n data st
  = (Ok (n, store_all data 0 (words_of_bytes rs)), framed g outs st).

(** A computation only ever adds to the log. *)
Definition appends {A} (m : M A) : Prop :=
  forall st, exists evs, trace (snd (m st)) = trace st ++ evs.

(** ... and, for the loops, adds nothing but byte exchanges. *)
Definition exchanges {A} (m : M A) : Prop :=
  forall st, exists evs,
    trace (snd (m st)) = trace st ++ evs /\ forallb is_transfer evs = true.

(** A transaction whose loop is never left: the call does not return, and
    after the slave pin has gone low the log holds byte exchanges only. *)
Definition left_selected {A} (g : Statics) (m : M A) (st : Bus) : Prop :=
  (forall x, fst (m st) <> Ok x)
  /\ exists evs,
       emitted m st = BeginTransaction (settings g)
                      :: DigitalWrite (slave g) LOW :: evs
       /\ forallb is_transfer evs = true.

End Log.

(** ** Instances used to run the model

    The constants as the AVR core's [Arduino.h] defines them, with the three
    arguments of the [SPISettings] constructor (clock, bit order, data mode)
    as the settings. *)

Definition avr : Wiring := {|
  SPISettings := Z * Z * Z;
  LOW := 0;
  HIGH := 1;
  OUTPUT := 1;
  LSBFIRST := 0;
  MSBFIRST := 1
|}.

(** A device that answers with a counter: 1, 2, 3, ... *)
Definition counting_device : Device := {|
  Dev := Z;
  dev_pin := fun _ _ d => d;
  dev_transfer := fun _ d => (d + 1, d + 1)
|}.

(** A device with one register.  A falling or rising select line makes it
    wait for an address byte; bit 7 of that byte selects reading, and the
    bytes that follow read the register or replace its content. *)
Inductive latch_phase : Type := AwaitAddress | Reading | Writing.

Record latch : Type := mkLatch {
  latch_reg : Z;
  latch_mode : latch_phase
}.

Definition latch_device : Device := {|
  Dev := latch;
  dev_pin := fun _ _ d => mkLatch (latch_reg d) AwaitAddress;
  dev_transfer := fun out d =>
    match latch_mode d with
    | AwaitAddress =>
        (0, mkLatch (latch_reg d)
              (if Z.testbit out 7 then Reading else Writing))
    | Reading => (latch_reg d, d)
    | Writing => (0, mkLatch out Writing)
    end
|}.

(** A device with one 16-bit register, read and written high byte first:
    after the address byte the bytes that follow are, in turn, the high and
    the low byte of the register. *)
Inductive word_phase : Type :=
| WAwait
| WReadHigh
| WReadLow
| WWriteHigh
| WWriteLow (hi : Z).

Record word_latch : Type := mkWordLatch {
  word_reg : Z;
  word_mode : word_phase
}.

Definition word_device : Device := {|
  Dev := word_latch;
  dev_pin := fun _ _ d => mkWordLatch (word_reg d) WAwait;
  dev_transfer := fun out d =>
    match word_mode d with
    | WAwait =>
        (0, mkWordLatch (word_reg d)
              (if Z.testbit out 7 then WReadHigh else WWriteHigh))
    | WReadHigh => (Z.shiftr (word_reg d) 8, mkWordLatch (word_reg d) WReadLow)
    | WReadLow => (word_reg d mod 256, mkWordLatch (word_reg d) WReadHigh)
    | WWriteHigh => (0, mkWordLatch (word_reg d) (WWriteLow out))
    | WWriteLow hi => (0, mkWordLatch (Z.lor (Z.shiftl hi 8) out) WWriteHigh)
    end
|}.

Definition word_bus (w : Z) : @Bus avr word_device :=
  @mkBus avr word_device (mkWordLatch w WAwait) [].

(** The byte [writeBit] writes back when it has read [b]. *)
Definition set_or_clear (bitNum data b : Z) : Z :=
  wrap8 (if to_bool data then Z.lor b (Z.shiftl 1 bitNum)
         else Z.land b (Z.lnot (Z.shiftl 1 bitNum))).

(** The word [writeBitW] writes back when it has read [w]. *)
Definition set_or_clearW (bitNum data w : Z) : Z :=
  wrap16 (if to_bool data then Z.lor w (Z.shiftl 1 bitNum)
          else Z.land w (Z.lnot (Z.shiftl 1 bitNum))).

(** The byte a device answers to the zero clocked out after a read
    address, from the bus state [st]. *)
Definition byte_read {W : Wiring} {D : Device} (g : Statics) (regAddr : Z)
    (st : Bus) : Z :=
  nth 1 (answers [Z.lor regAddr READ; 0] (dev_pin (slave g) LOW (device st))) 0.

(** Sample handles and buses on which the statements below are run: slave
    pin 10, the settings the AVR core gives a default-constructed
    [SPISettings], MSB-first or LSB-first declared order. *)
Definition sample_msb : @Statics avr :=
  @mkStatics avr 10 (@MSBFIRST avr) (4000000, 1, 0) 0.

Definition sample_lsb : @Statics avr :=
  @mkStatics avr 10 (@LSBFIRST avr) (4000000, 1, 0) 0.

Definition counting_bus : @Bus avr counting_device :=
  @mkBus avr counting_device 0 [].

Definition latch_bus (b : Z) : @Bus avr latch_device :=
  @mkBus avr latch_device (mkLatch b AwaitAddress) [].

(** A single-unit read that touches nothing and reports zero units. *)
Definition silent_read {W : Wiring} {D : Device} (regAddr u0 : Z)
    : M (Z * Z) :=
  ret (0, u0).

(** * Properties *)

(** ** Integers and lists *)

Lemma wrap8_small (z : Z) : 0 <= z < 256 -> wrap8 z = z.
Proof. intros H. unfold wrap8. apply Z.mod_small. exact H. Qed.

Lemma wrap8_range (z : Z) : 0 <= wrap8 z < 256.
Proof. unfold wrap8. apply Z.mod_pos_bound. lia. Qed.

Lemma wrap8_idem (z : Z) : wrap8 (wrap8 z) = wrap8 z.
Proof. apply wrap8_small, wrap8_range. Qed.

Lemma wrap_i8_small (z : Z) : -128 <= z < 128 -> wrap_i8 z = z.
Proof. intros H. unfold wrap_i8. rewrite Z.mod_small; lia. Qed.

Lemma wrap_i8_range (z : Z) : -128 <= wrap_i8 z < 128.
Proof.
  unfold wrap_i8.
  pose proof (Z.mod_pos_bound (z + 128) 256 ltac:(lia)). lia.
Qed.

Lemma read_address (regAddr : Z) :
  0 <= regAddr <= 127 -> wrap8 (Z.lor regAddr READ) = Z.lor regAddr 128.
Proof.
  intros H. unfold READ. apply wrap8_small. split.
  - apply Z.lor_nonneg. lia.
  - assert (L : Z.log2 regAddr < 8).
    { destruct (Z.eq_dec regAddr 0) as [->|Hne]; [simpl; lia|].
      apply Z.log2_lt_pow2; lia. }
    change 256 with (2 ^ 8). apply Z.log2_lt_pow2.
    + assert (0 <= Z.lor regAddr 128) by (apply Z.lor_nonneg; lia).
      assert (Z.lor regAddr 128 <> 0) by (rewrite Z.lor_eq_0_iff; lia).
      lia.
    + rewrite Z.log2_lor by lia. change (Z.log2 128) with 7. lia.
Qed.

Lemma skipn_length_app {A} (l r : list A) : skipn (length l) (l ++ r) = r.
Proof. induction l as [|x l IH]; simpl; [reflexivity | exact IH]. Qed.

Lemma skipn_firstn_step (l : list Z) (i n : nat) :
  (i < n)%nat -> (n <= length l)%nat ->
  skipn i (firstn n l) = nth i l 0 :: skipn (S i) (firstn n l).
Proof.
  revert i n. induction l as [|x l IH]; intros i n Hi Hn; simpl in Hn.
  - lia.
  - destruct n as [|n]; [lia|]. destruct i as [|i]; simpl.
    + reflexivity.
    + apply IH; lia.
Qed.

Lemma skipn_firstn_done {A} (l : list A) (n : nat) : skipn n (firstn n l) = [].
Proof. apply skipn_all2. apply firstn_le_length. Qed.

Lemma length_list_set (l : list Z) (n : nat) (v : Z) :
  length (list_set l n v) = length l.
Proof.
  revert n. induction l as [|x l IH]; intros [|n]; simpl; try reflexivity.
  now rewrite IH.
Qed.

(** ** Running the monad *)

Section Runs.

Context {W : Wiring} {D : Device}.

Lemma bind_ok {A B} (m : M A) (k : A -> M B) (st st' : Bus) (a : A) :
  m st = (Ok a, st') -> bind m k st = k a st'.
Proof. intros E. unfold bind. now rewrite E. Qed.

Lemma bind_not_ok {A B} (m : M A) (k : A -> M B) (st : Bus) :
  (forall a, fst (m st) <> Ok a) -> forall b, fst (bind m k st) <> Ok b.
Proof.
  intros H b. unfold bind. destruct (m st) as [[a| |] st'] eqn:E; simpl in *.
  - now destruct (H a).
  - discriminate.
  - discriminate.
Qed.

Lemma exchanges_appends {A} (m : M A) : exchanges m -> appends m.
Proof. intros H st. destruct (H st) as (evs & E & _). now exists evs. Qed.

Lemma exchanges_ret {A} (a : A) : exchanges (ret a).
Proof. intros st. exists []. simpl. now rewrite app_nil_r. Qed.

Lemma exchanges_fault {A} : exchanges (@fault _ _ A).
Proof. intros st. exists []. simpl. now rewrite app_nil_r. Qed.

Lemma exchanges_diverge {A} : exchanges (@diverge _ _ A).
Proof. intros st. exists []. simpl. now rewrite app_nil_r. Qed.

Lemma exchanges_bind {A B} (m : M A) (k : A -> M B) :
  exchanges m -> (forall a, exchanges (k a)) -> exchanges (bind m k).
Proof.
  intros Hm Hk st. unfold bind.
  destruct (Hm st) as (e1 & E1 & F1).
  destruct (m st) as [[a| |] st'] eqn:E; simpl in E1.
  - destruct (Hk a st') as (e2 & E2 & F2). exists (e1 ++ e2). split.
    + now rewrite E2, E1, app_assoc.
    + rewrite forallb_app, F1, F2. reflexivity.
  - now exists e1.
  - now exists e1.
Qed.

Lemma exchanges_transfer (out : Z) : exchanges (SPI_transfer out).
Proof.
  intros st. unfold SPI_transfer.
  destruct (dev_transfer (wrap8 out) (device st)) as [r d].
  now eexists [_].
Qed.

Lemma exchanges_load (data : list Z) (i : Z) : exchanges (load data i).
Proof.
  unfold load. destruct (in_bounds data i);
    [apply exchanges_ret | apply exchanges_fault].
Qed.

Lemma exchanges_store (data : list Z) (i v : Z) : exchanges (store data i v).
Proof.
  unfold store. destruct (in_bounds data i);
    [apply exchanges_ret | apply exchanges_fault].
Qed.

Create HintDb spi_log.
#[local] Hint Resolve exchanges_ret exchanges_fault exchanges_diverge
  exchanges_transfer exchanges_load exchanges_store : spi_log.

Ltac exchanges_step :=
  repeat first
    [ apply exchanges_bind; [|intros ?]
    | solve [auto with spi_log] ].

Lemma exchanges_readBytes_loop fuel len count data :
  exchanges (readBytes_loop fuel len count data).
Proof.
  revert count data. induction fuel as [|fuel IH]; intros count data; simpl.
  - apply exchanges_diverge.
  - destruct (count <? len); exchanges_step; try apply IH.
Qed.

Lemma exchanges_readWords_loop fuel len count msb data :
  exchanges (readWords_loop fuel len count msb data).
Proof.
  revert count msb data.
  induction fuel as [|fuel IH]; intros count msb data; simpl.
  - apply exchanges_diverge.
  - destruct (count <? len); [|exchanges_step].
    destruct (Z.b2z msb =? MSBFIRST); exchanges_step; try apply IH.
Qed.

Lemma exchanges_writeBytes_loop fuel len i data :
  exchanges (writeBytes_loop fuel len i data).
Proof.
  revert i. induction fuel as [|fuel IH]; intros i; simpl.
  - apply exchanges_diverge.
  - destruct (i <? len); exchanges_step; try apply IH.
Qed.

Lemma exchanges_writeWords_loop fuel len i data :
  exchanges (writeWords_loop fuel len i data).
Proof.
  revert i. induction fuel as [|fuel IH]; intros i; simpl.
  - apply exchanges_diverge.
  - destruct (i <? len); exchanges_step; try apply IH.
Qed.

Lemma emitted_intro {A} (m : M A) (st : Bus) (evs : list Event) :
  trace (snd (m st)) = trace st ++ evs -> emitted m st = evs.
Proof. intros E. unfold emitted. rewrite E. apply skipn_length_app. Qed.

Lemma SPI_transfer_wrap8 (out : Z) (st : Bus) :
  SPI_transfer (wrap8 out) st = SPI_transfer out st.
Proof. unfold SPI_transfer. now rewrite wrap8_idem. Qed.

Lemma clock_out_app (xs ys : list Z) (st : Bus) :
  clock_out (xs ++ ys) st = clock_out ys (clock_out xs st).
Proof.
  revert st. induction xs as [|x xs IH]; intros st; simpl;
    [reflexivity | apply IH].
Qed.

Lemma clock_out_log (outs : list Z) (st : Bus) :
  trace (clock_out outs st) = trace st ++ exchange outs (device st).
Proof.
  revert st. induction outs as [|o outs IH]; intros st; simpl.
  - now rewrite app_nil_r.
  - rewrite IH. unfold SPI_transfer.
    destruct (dev_transfer (wrap8 o) (device st)) as [r d]; simpl.
    now rewrite <- app_assoc.
Qed.

Lemma framed_log (g : Statics) (outs : list Z) (st : Bus) :
  trace (framed g outs st) = trace st ++ framed_events g outs (device st).
Proof.
  unfold framed, framed_events; simpl.
  rewrite clock_out_log; simpl.
  now rewrite <- !app_assoc.
Qed.

Lemma sent_app (xs ys : list Event) : sent (xs ++ ys) = sent xs ++ sent ys.
Proof. unfold sent. apply flat_map_app. Qed.

Lemma sent_exchange (outs : list Z) (d : Dev) :
  sent (exchange outs d) = map wrap8 outs.
Proof.
  revert d. induction outs as [|o outs IH]; intros d; simpl.
  - reflexivity.
  - destruct (dev_transfer (wrap8 o) d) as [r d']. simpl. now rewrite IH.
Qed.

Lemma sent_framed_events (g : Statics) (outs : list Z) (d : Dev) :
  sent (framed_events g outs d) = map wrap8 outs.
Proof.
  unfold framed_events. rewrite !sent_app, sent_exchange. simpl.
  now rewrite app_nil_r.
Qed.

End Runs.

(** ** The write transactions *)

Section Writes.

Context {W : Wiring} {D : Device}.

Lemma in_bounds_true (data : list Z) (i : Z) :
  0 <= i < Z.of_nat (length data) -> in_bounds data i = true.
Proof.
  intros H. unfold in_bounds. apply andb_true_intro. split.
  - apply Z.leb_le. lia.
  - apply Z.ltb_lt. lia.
Qed.

Lemma writeBytes_loop_run (fuel : nat) (len i : Z) (data : list Z) (st : Bus) :
  0 <= i <= len -> len <= 255 -> len <= Z.of_nat (length data) ->
  (Z.to_nat (len - i) < fuel)%nat ->
  writeBytes_loop fuel len i data st
  = (Ok tt, clock_out (skipn (Z.to_nat i) (firstn (Z.to_nat len) data)) st).
Proof.
  revert i st. induction fuel as [|fuel IH]; intros i st Hi Hl Hd Hf.
  - lia.
  - simpl. destruct (Z.ltb_spec i len) as [Hlt|Hge].
    + unfold load. rewrite in_bounds_true by lia.
      rewrite (skipn_firstn_step data (Z.to_nat i) (Z.to_nat len)) by lia.
      unfold bind at 1. unfold ret at 1.
      unfold bind at 1. rewrite SPI_transfer_wrap8.
      destruct (SPI_transfer (nth (Z.to_nat i) data 0) st) as [o st1] eqn:E.
      assert (Eo : exists r, o = Ok r).
      { unfold SPI_transfer in E.
        destruct (dev_transfer _ _). inversion E. eauto. }
      destruct Eo as [r ->].
      rewrite wrap8_small by lia. rewrite IH by lia.
      replace (Z.to_nat (i + 1)) with (S (Z.to_nat i)) by lia.
      simpl. now rewrite E.
    + assert (i = len) by lia. subst i.
      now rewrite skipn_firstn_done.
Qed.

Lemma bytes_of_words_cons (w : Z) (ws : list Z) :
  bytes_of_words (w :: ws)
  = wrap8 (Z.shiftr w 8) :: wrap8 w :: bytes_of_words ws.
Proof. reflexivity. Qed.

Lemma SPI_transfer_ok (out : Z) (st : Bus) :
  exists r, SPI_transfer out st = (Ok r, snd (SPI_transfer out st)).
Proof.
  unfold SPI_transfer. destruct (dev_transfer _ _). simpl. eauto.
Qed.

Lemma writeWords_loop_run (fuel : nat) (len i : Z) (data : list Z) (st : Bus) :
  0 <= i <= len -> len <= 255 -> len <= Z.of_nat (length data) ->
  (Z.to_nat (len - i) < fuel)%nat ->
  writeWords_loop fuel len i data st
  = (Ok tt, clock_out
      (bytes_of_words (skipn (Z.to_nat i) (firstn (Z.to_nat len) data))) st).
Proof.
  revert i st. induction fuel as [|fuel IH]; intros i st Hi Hl Hd Hf.
  - lia.
  - simpl. destruct (Z.ltb_spec i len) as [Hlt|Hge].
    + unfold load. rewrite in_bounds_true by lia.
      rewrite (skipn_firstn_step data (Z.to_nat i) (Z.to_nat len)) by lia.
      rewrite bytes_of_words_cons.
      set (v := nth (Z.to_nat i) data 0).
      unfold bind at 1. unfold ret at 1.
      destruct (SPI_transfer_ok (wrap8 (Z.shiftr v 8)) st) as [r1 E1].
      rewrite (bind_ok _ _ _ _ _ E1).
      destruct (SPI_transfer_ok (wrap8 v)
                  (snd (SPI_transfer (wrap8 (Z.shiftr v 8)) st)))
        as [r2 E2].
      rewrite (bind_ok _ _ _ _ _ E2).
      rewrite wrap8_small by lia. rewrite IH by lia.
      replace (Z.to_nat (i + 1)) with (S (Z.to_nat i)) by lia.
      reflexivity.
    + assert (i = len) by lia. subst i.
      now rewrite skipn_firstn_done.
Qed.

Lemma bind_emit {A} (e : Event) (k : unit -> M A) (st : Bus) :
  bind (emit e) k st = k tt (mkBus (device st) (trace st ++ [e])).
Proof. reflexivity. Qed.

Lemma bind_digitalWrite {A} (pin level : Z) (k : unit -> M A) (st : Bus) :
  bind (digitalWrite pin level) k st
  = k tt (mkBus (dev_pin pin level (device st))
                (trace st ++ [DigitalWrite pin level])).
Proof. reflexivity. Qed.

Lemma writeBytes_run (g : Statics) (regAddr len : Z) (data : list Z)
    (st : Bus) :
  0 <= len <= 255 -> len <= Z.of_nat (length data) ->
  writeBytes g regAddr len data st
  = (Ok true, framed g (regAddr :: firstn (Z.to_nat len) data) st).
Proof.
  intros Hl Hd.
  unfold writeBytes, framed, SPI_beginTransaction, SPI_endTransaction.
  cbv zeta. rewrite bind_emit, bind_digitalWrite.
  match goal with |- bind (SPI_transfer regAddr) _ ?s = _ =>
    destruct (SPI_transfer_ok regAddr s) as [r E] end.
  rewrite (bind_ok _ _ _ _ _ E).
  erewrite bind_ok by (apply writeBytes_loop_run; unfold loop_fuel; lia).
  reflexivity.
Qed.

Lemma writeWords_run (g : Statics) (regAddr len : Z) (data : list Z)
    (st : Bus) :
  0 <= len <= 255 -> len <= Z.of_nat (length data) ->
  writeWords g regAddr len data st
  = (Ok true,
     framed g (regAddr :: bytes_of_words (firstn (Z.to_nat len) data)) st).
Proof.
  intros Hl Hd.
  unfold writeWords, framed, SPI_beginTransaction, SPI_endTransaction.
  cbv zeta. rewrite bind_emit, bind_digitalWrite.
  match goal with |- bind (SPI_transfer regAddr) _ ?s = _ =>
    destruct (SPI_transfer_ok regAddr s) as [r E] end.
  rewrite (bind_ok _ _ _ _ _ E).
  erewrite bind_ok by (apply writeWords_loop_run; unfold loop_fuel; lia).
  reflexivity.
Qed.

Lemma writeByte_run (g : Statics) (regAddr data : Z) (st : Bus) :
  writeByte g regAddr data st = (Ok true, framed g [regAddr; data] st).
Proof. unfold writeByte. now rewrite writeBytes_run by (simpl; lia). Qed.

Lemma writeWord_run (g : Statics) (regAddr data : Z) (st : Bus) :
  writeWord g regAddr data st
  = (Ok true, framed g [regAddr; wrap8 (Z.shiftr data 8); wrap8 data] st).
Proof. unfold writeWord. now rewrite writeWords_run by (simpl; lia). Qed.

End Writes.

(** ** The address byte *)

Section Address.

Context {W : Wiring} {D : Device}.

Lemma appends_ret {A} (a : A) : appends (ret a).
Proof. apply exchanges_appends, exchanges_ret. Qed.

Lemma appends_emit (e : Event) : appends (emit e).
Proof. intros st. now exists [e]. Qed.

Lemma appends_digitalWrite (pin level : Z) : appends (digitalWrite pin level).
Proof. intros st. now eexists [_]. Qed.

Lemma appends_bind {A B} (m : M A) (k : A -> M B) :
  appends m -> (forall a, appends (k a)) -> appends (bind m k).
Proof.
  intros Hm Hk st. unfold bind.
  destruct (Hm st) as (e1 & E1).
  destruct (m st) as [[a| |] st'] eqn:E; simpl in E1.
  - destruct (Hk a st') as (e2 & E2). exists (e1 ++ e2).
    now rewrite E2, E1, app_assoc.
  - now exists e1.
  - now exists e1.
Qed.

Lemma SPI_transfer_run (out : Z) (st : Bus) :
  exists r d,
    SPI_transfer out st
    = (Ok r, mkBus d (trace st ++ [Transfer (wrap8 out) r])).
Proof.
  unfold SPI_transfer. destruct (dev_transfer _ _) as [r d]. eauto.
Qed.

(** The opening of each of the four transactions. *)
Lemma opening {A} (g : Statics) (a : Z) (k : M A) (st : Bus) :
  appends k ->
  address_first g (wrap8 a)
    (emitted (SPI_beginTransaction (settings g) ;;
              digitalWrite (slave g) LOW ;;
              SPI_transfer a ;; k) st).
Proof.
  intros Hk. unfold SPI_beginTransaction.
  unfold address_first, emitted.
  rewrite bind_emit, bind_digitalWrite.
  match goal with |- context [bind (SPI_transfer a) _ ?s] =>
    destruct (SPI_transfer_run a s) as (r & d & E) end.
  rewrite (bind_ok _ _ _ _ _ E).
  match goal with |- context [k ?s] => destruct (Hk s) as [evs Ek] end.
  rewrite Ek. simpl trace. exists r, evs.
  rewrite <- !app_assoc. simpl. apply skipn_length_app.
Qed.

End Address.

Ltac appends_step :=
  repeat first
    [ apply appends_ret
    | apply appends_emit
    | apply appends_digitalWrite
    | apply exchanges_appends;
      first [ apply exchanges_readBytes_loop | apply exchanges_readWords_loop
            | apply exchanges_writeBytes_loop | apply exchanges_writeWords_loop
            | apply exchanges_transfer ]
    | apply appends_bind; [|intros ?]
    | match goal with |- appends (let (_, _) := ?p in _) => destruct p end ].

(** ** The claims about the wire format *)

Section WireFormat.

Context {W : Wiring} {D : Device}.

(** C1.  For a register address in 0..127 and any requested count, buffer
    and bus, the first byte [readBytes] and [readWords] clock out after they
    have taken the slave pin low is [regAddr | 0x80], and the first byte
    [writeBytes] and [writeWords] clock out is [regAddr] itself.  This holds
    whatever the call does afterwards. *)
Theorem address_byte_on_the_wire (g : Statics) (regAddr len : Z)
    (data : list Z) (st : Bus) :
  0 <= regAddr <= 127 ->
  address_first g (Z.lor regAddr 0x80)
    (emitted (readBytes g regAddr len data) st)
  /\ address_first g (Z.lor regAddr 0x80)
       (emitted (readWords g regAddr len data) st)
  /\ address_first g regAddr (emitted (writeBytes g regAddr len data) st)
  /\ address_first g regAddr (emitted (writeWords g regAddr len data) st).
Proof.
  intros H.
  pose proof (read_address regAddr H) as Er.
  assert (Ew : wrap8 regAddr = regAddr) by (apply wrap8_small; lia).
  repeat split.
  - rewrite <- Er. unfold readBytes. cbv zeta. apply opening. appends_step.
  - rewrite <- Er. unfold readWords. cbv zeta. apply opening. appends_step.
  - rewrite <- Ew at 1. unfold writeBytes. cbv zeta. apply opening.
    unfold SPI_endTransaction. appends_step.
  - rewrite <- Ew at 1. unfold writeWords. cbv zeta. apply opening.
    unfold SPI_endTransaction. appends_step.
Qed.

Lemma map_wrap8_bytes_of_words (ws : list Z) :
  map wrap8 (bytes_of_words ws) = bytes_of_words ws.
Proof.
  induction ws as [|w ws IH]; [reflexivity|].
  rewrite bytes_of_words_cons. simpl. now rewrite IH, !wrap8_idem.
Qed.

(** C4.  [writeWords] sends, for every word of the buffer in turn, the byte
    [w >> 8] and then the low byte of [w], inside one framed transaction
    that starts with the register address; the declared bit order of the
    handle plays no part in it.  In particular [writeWord(0x05, 0xABCD)] on
    a handle declared MSB-first clocks out 0x05, 0xAB, 0xCD. *)
Theorem writeWords_high_byte_first (g : Statics) (regAddr len : Z)
    (data : list Z) (st : Bus) :
  0 <= len <= 255 -> len = Z.of_nat (length data) ->
  emitted (writeWords g regAddr len data) st
  = framed_events g (regAddr :: bytes_of_words data) (device st)
  /\ sent (emitted (writeWords g regAddr len data) st)
     = wrap8 regAddr :: bytes_of_words data
  /\ (forall order,
       writeWords (mkStatics (slave g) order (settings g) (readTimeout g))
         regAddr len data st
       = writeWords g regAddr len data st)
  /\ sent (emitted
       (writeWord (mkStatics (slave g) MSBFIRST (settings g) (readTimeout g))
          0x05 0xABCD) st)
     = [0x05; 0xAB; 0xCD].
Proof.
  intros Hl Hd.
  assert (E : emitted (writeWords g regAddr len data) st
              = framed_events g (regAddr :: bytes_of_words data) (device st)).
  { apply emitted_intro. rewrite writeWords_run by lia. simpl snd.
    rewrite framed_log. subst len. now rewrite Nat2Z.id, firstn_all. }
  split; [exact E|]. split; [|split].
  - rewrite E, sent_framed_events. simpl.
    now rewrite map_wrap8_bytes_of_words.
  - reflexivity.
  - erewrite emitted_intro.
    2:{ rewrite writeWord_run. simpl snd. apply framed_log. }
    rewrite sent_framed_events. reflexivity.
Qed.

Lemma bind_inv {A B} (m : M A) (k : A -> M B) (st st' : Bus) (b : B) :
  bind m k st = (Ok b, st') ->
  exists a st1, m st = (Ok a, st1) /\ k a st1 = (Ok b, st').
Proof.
  unfold bind. destruct (m st) as [[a| |] st1]; intros E;
    try discriminate. eauto.
Qed.

(** C8.  The value [writeBytes] and [writeWords] return is [true]: a call
    never returns [false], and a call with a count that fits [uint8_t] and
    a buffer of at least that many units does return. *)
Theorem writes_report_success (g : Statics) (regAddr len : Z)
    (data : list Z) (st : Bus) :
  (forall b, fst (writeBytes g regAddr len data st) = Ok b -> b = true)
  /\ (forall b, fst (writeWords g regAddr len data st) = Ok b -> b = true)
  /\ (0 <= len <= 255 -> len <= Z.of_nat (length data) ->
      fst (writeBytes g regAddr len data st) = Ok true
      /\ fst (writeWords g regAddr len data st) = Ok true).
Proof.
  split; [|split].
  - intros b E.
    destruct (writeBytes g regAddr len data st) as [o st'] eqn:R.
    simpl in E. subst o. unfold writeBytes in R.
    repeat (apply bind_inv in R; destruct R as (? & ? & _ & R)).
    now inversion R.
  - intros b E.
    destruct (writeWords g regAddr len data st) as [o st'] eqn:R.
    simpl in E. subst o. unfold writeWords in R.
    repeat (apply bind_inv in R; destruct R as (? & ? & _ & R)).
    now inversion R.
  - intros Hl Hd.
    now rewrite writeBytes_run, writeWords_run by assumption.
Qed.

End WireFormat.

(** ** The read transactions *)

Section Reads.

Context {W : Wiring} {D : Device}.

Lemma store_in_bounds (data : list Z) (i v : Z) (st : Bus) :
  0 <= i < Z.of_nat (length data) ->
  store data i v st = (Ok (list_set data (Z.to_nat i) v), st).
Proof. intros H. unfold store. now rewrite in_bounds_true. Qed.

Lemma answers_clock_out (o : Z) (outs : list Z) (st : Bus) :
  exists r,
    SPI_transfer o st = (Ok r, snd (SPI_transfer o st))
    /\ answers (o :: outs) (device st)
       = r :: answers outs (device (snd (SPI_transfer o st))).
Proof.
  unfold SPI_transfer. simpl.
  destruct (dev_transfer (wrap8 o) (device st)) as [r d]. simpl. eauto.
Qed.

Lemma readBytes_loop_run (fuel : nat) (len count : Z) (data : list Z)
    (st : Bus) :
  0 <= count <= len -> len <= 127 -> len <= Z.of_nat (length data) ->
  (Z.to_nat (len - count) < fuel)%nat ->
  let zeros := repeat 0 (Z.to_nat (len - count)) in
  readBytes_loop fuel len count data st
  = (Ok (len, store_all data (Z.to_nat count) (answers zeros (device st))),
     clock_out zeros st).
Proof.
  revert count data st.
  induction fuel as [|fuel IH]; intros count data st Hc Hl Hd Hf zeros.
  - lia.
  - simpl. destruct (Z.ltb_spec count len) as [Hlt|Hge].
    + subst zeros.
      replace (Z.to_nat (len - count))
        with (S (Z.to_nat (len - (count + 1)))) by lia.
      cbn [repeat clock_out].
      destruct (answers_clock_out 0
                  (repeat 0 (Z.to_nat (len - (count + 1)))) st)
        as (r & E1 & E2).
      rewrite E2. cbn [store_all].
      rewrite (bind_ok _ _ _ _ _ E1).
      rewrite (bind_ok _ _ _ _ _ (store_in_bounds data count r _ ltac:(lia))).
      rewrite wrap_i8_small by lia.
      rewrite IH by (rewrite ?length_list_set; lia).
      now replace (Z.to_nat (count + 1)) with (S (Z.to_nat count)) by lia.
    + assert (count = len) by lia. subst count zeros.
      now rewrite Z.sub_diag.
Qed.

(** A read of at most 127 bytes into a buffer that has room for them is one
    framed transaction: the address with the read bit, then one zero byte
    clocked out for every byte read. *)
Lemma readBytes_run (g : Statics) (regAddr len : Z) (data : list Z) (st : Bus) :
  0 <= len <= 127 -> len <= Z.of_nat (length data) ->
  let outs := Z.lor regAddr READ :: repeat 0 (Z.to_nat len) in
  readBytes g regAddr len data st
  = (Ok (len, store_all data 0
                (tl (answers outs (dev_pin (slave g) LOW (device st))))),
     framed g outs st).
Proof.
  intros Hl Hd outs.
  unfold readBytes, framed, SPI_beginTransaction, SPI_endTransaction.
  cbv zeta. rewrite bind_emit, bind_digitalWrite.
  subst outs.
  match goal with |- bind (SPI_transfer ?a) _ ?s = _ =>
    destruct (answers_clock_out a (repeat 0 (Z.to_nat len)) s)
      as (r & E1 & E2) end.
  rewrite (bind_ok _ _ _ _ _ E1). simpl device in E2. rewrite E2.
  erewrite bind_ok
    by (apply readBytes_loop_run; unfold loop_fuel; lia).
  now rewrite Z.sub_0_r.
Qed.

Lemma readByte_run (g : Statics) (regAddr b0 : Z) (st : Bus) :
  let outs := [Z.lor regAddr READ; 0] in
  readByte g regAddr b0 st
  = (Ok (1, nth 1 (answers outs (dev_pin (slave g) LOW (device st))) 0),
     framed g outs st).
Proof.
  intros outs. unfold readByte.
  erewrite bind_ok by (apply readBytes_run; simpl; lia).
  subst outs. simpl.
  destruct (dev_transfer (wrap8 (Z.lor regAddr READ))
              (dev_pin (slave g) LOW (device st))) as [r1 d1].
  destruct (dev_transfer (wrap8 0) d1) as [r2 d2].
  reflexivity.
Qed.

End Reads.

(** ** Bit fields *)

Lemma wrap8_bits (z i : Z) :
  Z.testbit (wrap8 z) i = (i <? 8) && Z.testbit z i.
Proof.
  unfold wrap8. change 256 with (2 ^ 8). apply Z.testbit_mod_pow2. lia.
Qed.

Lemma field_mask_bits (bitStart len i : Z) :
  0 <= len -> 0 <= i ->
  Z.testbit (field_mask bitStart len) i
  = (bitStart - len + 1 <=? i) && (i <=? bitStart).
Proof.
  intros Hl Hi. unfold field_mask.
  rewrite Z.shiftl_spec by lia. rewrite Z.shiftl_1_l.
  replace (2 ^ len - 1) with (Z.ones len) by (rewrite Z.ones_equiv; lia).
  rewrite Z.testbit_ones by lia.
  destruct (Z.leb_spec 0 (i - (bitStart - len + 1)));
    destruct (Z.ltb_spec (i - (bitStart - len + 1)) len);
    destruct (Z.leb_spec (bitStart - len + 1) i);
    destruct (Z.leb_spec i bitStart); simpl; try reflexivity; lia.
Qed.

Ltac compare_cases :=
  repeat match goal with
    | |- context [?a <? ?b] => destruct (Z.ltb_spec a b)
    | |- context [?a <=? ?b] => destruct (Z.leb_spec a b)
    end.

Lemma merge_bits_bits (bitStart len v b i : Z) :
  0 <= len -> 0 <= bitStart - len + 1 -> 0 <= i ->
  Z.testbit (merge_bits bitStart len v b) i
  = (i <? 8)
    && (if (bitStart - len + 1 <=? i) && (i <=? bitStart)
        then Z.testbit v (i - (bitStart - len + 1))
        else Z.testbit b i).
Proof.
  intros Hl Hs Hi. unfold merge_bits.
  rewrite !wrap8_bits, Z.lor_spec, !wrap8_bits, !Z.land_spec, !wrap8_bits.
  rewrite Z.lnot_spec, wrap8_bits, Z.shiftl_spec, field_mask_bits by lia.
  compare_cases; simpl; try lia;
    rewrite ?andb_true_r, ?andb_false_r, ?orb_false_r; reflexivity.
Qed.

Lemma extract_merge_bits (bitStart len v b : Z) :
  1 <= len <= 8 -> len - 1 <= bitStart <= 7 ->
  extract_bits bitStart len (merge_bits bitStart len v b) = v mod 2 ^ len.
Proof.
  intros Hl Hb. unfold extract_bits. apply Z.bits_inj'. intros i Hi.
  rewrite wrap8_bits, Z.shiftr_spec, wrap8_bits, Z.land_spec by lia.
  rewrite merge_bits_bits, wrap8_bits, field_mask_bits by lia.
  rewrite Z.testbit_mod_pow2 by lia.
  replace (i + (bitStart - len + 1) - (bitStart - len + 1)) with i by lia.
  compare_cases; simpl; try lia;
    rewrite ?andb_true_r, ?andb_false_r; reflexivity.
Qed.

Lemma merge_bits_outside (bitStart len v b i : Z) :
  1 <= len <= 8 -> len - 1 <= bitStart <= 7 -> 0 <= b <= 255 -> 0 <= i ->
  ~ (bitStart - len + 1 <= i <= bitStart) ->
  Z.testbit (merge_bits bitStart len v b) i = Z.testbit b i.
Proof.
  intros Hl Hs Hb Hi Hout.
  rewrite merge_bits_bits by lia.
  rewrite <- (wrap8_small b) at 2 by lia. rewrite wrap8_bits.
  compare_cases; simpl; try lia; reflexivity.
Qed.

(** ** Write then read on the one-register device *)

Section RoundTrip.

Context {W : Wiring}.
#[local] Existing Instance latch_device.

Lemma read_address_bit7 (regAddr : Z) :
  0 <= regAddr <= 127 -> Z.testbit (wrap8 (Z.lor regAddr READ)) 7 = true.
Proof.
  intros H. rewrite wrap8_bits, Z.lor_spec. unfold READ.
  change (Z.testbit 128 7) with true. now rewrite orb_true_r.
Qed.

Lemma write_address_bit7 (regAddr : Z) :
  0 <= regAddr <= 127 -> Z.testbit (wrap8 regAddr) 7 = false.
Proof.
  intros H. rewrite wrap8_small by lia.
  destruct (Z.eq_dec regAddr 0) as [->|Hne]; [reflexivity|].
  apply Z.bits_above_log2; [lia|].
  apply Z.log2_lt_pow2; lia.
Qed.

Lemma latch_readByte (g : Statics) (regAddr b0 b : Z) (ph : latch_phase)
    (tr : list Event) :
  0 <= regAddr <= 127 -> 0 <= b <= 255 ->
  readByte g regAddr b0 (mkBus (mkLatch b ph) tr)
  = (Ok (1, b),
     mkBus (mkLatch b AwaitAddress)
       (tr ++ [BeginTransaction (settings g); DigitalWrite (slave g) LOW;
               Transfer (Z.lor regAddr 128) 0; Transfer 0 b;
               DigitalWrite (slave g) HIGH; EndTransaction])).
Proof.
  intros Ha Hb. rewrite readByte_run.
  unfold framed, SPI_beginTransaction, SPI_endTransaction, emit,
    digitalWrite, clock_out, SPI_transfer, answers.
  cbn -[Z.testbit wrap8 Z.lor].
  rewrite read_address_bit7 by assumption.
  cbn -[Z.testbit wrap8 Z.lor].
  rewrite read_address, (wrap8_small b) by lia.
  rewrite <- !app_assoc. reflexivity.
Qed.

Lemma latch_writeByte (g : Statics) (regAddr x b : Z) (ph : latch_phase)
    (tr : list Event) :
  0 <= regAddr <= 127 ->
  writeByte g regAddr x (mkBus (mkLatch b ph) tr)
  = (Ok true,
     mkBus (mkLatch (wrap8 x) AwaitAddress)
       (tr ++ [BeginTransaction (settings g); DigitalWrite (slave g) LOW;
               Transfer regAddr 0; Transfer (wrap8 x) 0;
               DigitalWrite (slave g) HIGH; EndTransaction])).
Proof.
  intros Ha. rewrite writeByte_run.
  unfold framed, SPI_beginTransaction, SPI_endTransaction, emit,
    digitalWrite, clock_out, SPI_transfer.
  cbn -[Z.testbit wrap8].
  rewrite write_address_bit7 by assumption.
  cbn -[Z.testbit wrap8].
  rewrite (wrap8_small regAddr) by lia.
  rewrite <- !app_assoc. reflexivity.
Qed.

Lemma merge_bits_byte (bitStart len v b : Z) :
  wrap8 (merge_bits bitStart len v b) = merge_bits bitStart len v b.
Proof. unfold merge_bits. apply wrap8_idem. Qed.

(** C2.  On a device that gives back the byte last written, with a field
    of [len] bits (1..8) whose top bit is [bitStart] ([len-1]..7), any value
    [v] and any register content [b]: [writeBits] succeeds, a [readBits] of
    the same field after it returns [v] reduced to [len] bits, and the byte
    [writeBits] has written has the bits of [b] everywhere outside the
    field. *)
Theorem writeBits_readBits_round_trip (g : Statics)
    (regAddr bitStart len v b b0 b1 d0 : Z) (ph : latch_phase)
    (tr : list Event) :
  0 <= regAddr <= 127 -> 1 <= len <= 8 -> len - 1 <= bitStart <= 7 ->
  0 <= b <= 255 ->
  let st := mkBus (mkLatch b ph) tr in
  let st1 := snd (writeBits g regAddr bitStart len v b0 st) in
  let written := latch_reg (device st1) in
  fst (writeBits g regAddr bitStart len v b0 st) = Ok true
  /\ fst (readBits g regAddr bitStart len d0 b1 st1) = Ok (1, v mod 2 ^ len)
  /\ sent (emitted (writeBits g regAddr bitStart len v b0) st)
     = [Z.lor regAddr 0x80; 0; regAddr; written]
  /\ (forall i, 0 <= i -> ~ (bitStart - len + 1 <= i <= bitStart) ->
        Z.testbit written i = Z.testbit b i).
Proof.
  intros Ha Hl Hs Hb st st1 written.
  assert (E : writeBits g regAddr bitStart len v b0 st
    = (Ok true,
       mkBus (mkLatch (merge_bits bitStart len v b) AwaitAddress)
         ((tr ++ [BeginTransaction (settings g); DigitalWrite (slave g) LOW;
                  Transfer (Z.lor regAddr 128) 0; Transfer 0 b;
                  DigitalWrite (slave g) HIGH; EndTransaction])
             ++ [BeginTransaction (settings g); DigitalWrite (slave g) LOW;
                 Transfer regAddr 0;
                 Transfer (merge_bits bitStart len v b) 0;
                 DigitalWrite (slave g) HIGH; EndTransaction]))).
  { unfold writeBits, writeBits_over, st.
    erewrite bind_ok by (apply latch_readByte; assumption).
    cbv beta iota. change (negb (1 =? 0)) with true. cbv iota.
    rewrite latch_writeByte by assumption.
    now rewrite merge_bits_byte. }
  subst st1 written. rewrite E. simpl fst. simpl snd. simpl latch_reg.
  split; [reflexivity|]. split; [|split].
  - unfold readBits.
    erewrite bind_ok
      by (apply latch_readByte;
          [assumption | pose proof (wrap8_range (merge_bits bitStart len v b));
                        rewrite merge_bits_byte in *; lia]).
    simpl. now rewrite extract_merge_bits.
  - erewrite emitted_intro.
    2:{ rewrite E. simpl. rewrite <- app_assoc. reflexivity. }
    reflexivity.
  - intros i Hi Hout. now apply merge_bits_outside.
Qed.

End RoundTrip.

(** ** Requests of 128 units and more *)

Section LongReads.

Context {W : Wiring} {D : Device}.

Lemma bind_stuck {A B} (m : M A) (k : A -> M B) (st : Bus) :
  (forall a, fst (m st) <> Ok a) -> snd (bind m k st) = snd (m st).
Proof.
  intros H. unfold bind. destruct (m st) as [[a| |] st'] eqn:E; simpl in *.
  - now destruct (H a).
  - reflexivity.
  - reflexivity.
Qed.

(** The [int8_t] counter stays below a length of 128 or more, so the loop
    is never left through its condition. *)
Lemma readBytes_loop_overrun (fuel : nat) (len count : Z) (data : list Z)
    (st : Bus) :
  128 <= len -> -128 <= count <= 127 ->
  forall x, fst (readBytes_loop fuel len count data st) <> Ok x.
Proof.
  intros Hl. revert count data st.
  induction fuel as [|fuel IH]; intros count data st Hc x; simpl.
  - discriminate.
  - destruct (Z.ltb_spec count len) as [_|Hge]; [|lia].
    unfold bind. destruct (SPI_transfer 0 st) as [[r'| |] st1]; simpl;
      try discriminate.
    destruct (store data count r' st1) as [[data'| |] st2]; simpl;
      try discriminate.
    apply IH. pose proof (wrap_i8_range (count + 1)). lia.
Qed.

Lemma readWords_loop_overrun (fuel : nat) (len count : Z) (msb : bool)
    (data : list Z) (st : Bus) :
  128 <= len -> -128 <= count <= 127 ->
  forall x, fst (readWords_loop fuel len count msb data st) <> Ok x.
Proof.
  intros Hl. revert count msb data st.
  induction fuel as [|fuel IH]; intros count msb data st Hc x; simpl.
  - discriminate.
  - destruct (Z.ltb_spec count len) as [_|Hge]; [|lia].
    destruct (Z.b2z msb =? MSBFIRST).
    + unfold bind. destruct (SPI_transfer 0 st) as [[r'| |] st1]; simpl;
        try discriminate.
      destruct (store data count _ st1) as [[data'| |] st2]; simpl;
        try discriminate.
      now apply IH.
    + unfold bind. destruct (SPI_transfer 0 st) as [[r'| |] st1]; simpl;
        try discriminate.
      destruct (load data count st1) as [[w| |] st2]; simpl;
        try discriminate.
      destruct (store data count _ st2) as [[data'| |] st3]; simpl;
        try discriminate.
      apply IH. pose proof (wrap_i8_range (count + 1)). lia.
Qed.

Lemma never_closed {A B} (g : Statics) (a : Z) (loop : M A)
    (k : A -> M B) (st : Bus) :
  exchanges loop ->
  (forall st' x, fst (loop st') <> Ok x) ->
  left_selected g
    (SPI_beginTransaction (settings g) ;;
     digitalWrite (slave g) LOW ;;
     SPI_transfer a ;;
     bind loop k) st.
Proof.
  intros Hex Hno. unfold left_selected, emitted, SPI_beginTransaction.
  rewrite bind_emit, bind_digitalWrite.
  match goal with |- context [bind (SPI_transfer a) _ ?s] =>
    destruct (SPI_transfer_run a s) as (r & d & E) end.
  rewrite (bind_ok _ _ _ _ _ E). split.
  - apply bind_not_ok. intros x. apply Hno.
  - rewrite bind_stuck by (intros x; apply Hno).
    match goal with |- context [loop ?s] =>
      destruct (Hex s) as (evs & Ee & Ft) end.
    rewrite Ee. simpl trace. exists (Transfer (wrap8 a) r :: evs). split.
    + rewrite <- !app_assoc. simpl. apply skipn_length_app.
    + exact Ft.
Qed.

(** C5, at a request of 128 units or more.  [readBytes] and [readWords] do
    not return from such a request, and the slave pin, taken low before the
    address byte, is not written again: what the call adds to the log after
    that write is byte exchanges only. *)
Theorem long_read_leaves_chip_selected (g : Statics) (regAddr len : Z)
    (data : list Z) (st : Bus) :
  128 <= len ->
  left_selected g (readBytes g regAddr len data) st
  /\ left_selected g (readWords g regAddr len data) st.
Proof.
  intros Hl. split.
  - unfold readBytes. cbv zeta. apply never_closed.
    + apply exchanges_readBytes_loop.
    + intros st' x. apply readBytes_loop_overrun; lia.
  - unfold readWords. cbv zeta. apply never_closed.
    + apply exchanges_readWords_loop.
    + intros st' x. apply readWords_loop_overrun; lia.
Qed.

End LongReads.

(** ** The phase flag of [readWords] *)

Lemma list_set_twice (l : list Z) (n : nat) (v w : Z) :
  list_set (list_set l n v) n w = list_set l n w.
Proof.
  revert n. induction l as [|x l IH]; intros [|n]; simpl; try reflexivity.
  now rewrite IH.
Qed.

Lemma nth_list_set (l : list Z) (n : nat) (v : Z) :
  (n < length l)%nat -> nth n (list_set l n v) 0 = v.
Proof.
  revert n. induction l as [|x l IH]; intros [|n] H; simpl in *; try lia.
  apply IH. lia.
Qed.

Section WordReads.

Context {W : Wiring} {D : Device}.

Hypothesis msbfirst_is_1 : MSBFIRST = 1.
Hypothesis lsbfirst_is_0 : LSBFIRST = 0.

Lemma in_bounds_list_set (data : list Z) (n : nat) (v i : Z) :
  in_bounds (list_set data n v) i = in_bounds data i.
Proof. unfold in_bounds. now rewrite length_list_set. Qed.

(** Two rounds of the loop, from the high-byte phase: one word. *)
Lemma readWords_loop_word (fuel : nat) (len count : Z) (data : list Z)
    (st : Bus) :
  count < len -> in_bounds data count = true ->
  readWords_loop (S (S fuel)) len count true data st
  = readWords_loop fuel len (wrap_i8 (count + 1)) true
      (list_set data (Z.to_nat count)
         (nth 0 (words_of_bytes (answers [0; 0] (device st))) 0))
      (clock_out [0; 0] st).
Proof.
  intros Hlt Hin.
  assert (Hi : (Z.to_nat count < length data)%nat).
  { unfold in_bounds in Hin. apply andb_prop in Hin. destruct Hin as [H1 H2].
    apply Z.leb_le in H1. apply Z.ltb_lt in H2. lia. }
  cbn [readWords_loop].
  destruct (Z.ltb_spec count len) as [_|]; [|lia].
  rewrite msbfirst_is_1, lsbfirst_is_0.
  change (Z.b2z true =? 1) with true. change (to_bool 0) with false.
  change (Z.b2z false =? 1) with false. change (to_bool 1) with true.
  cbv iota.
  unfold bind, SPI_transfer, store, load. cbn [answers clock_out snd].
  unfold SPI_transfer.
  destruct (dev_transfer (wrap8 0) (device st)) as [r1 d1].
  rewrite Hin. cbn [ret device trace snd].
  destruct (dev_transfer (wrap8 0) d1) as [r2 d2].
  rewrite in_bounds_list_set, Hin. cbn [ret snd words_of_bytes nth].
  rewrite nth_list_set by exact Hi.
  now rewrite list_set_twice.
Qed.

Lemma answers_app (xs ys : list Z) (st : Bus) :
  answers (xs ++ ys) (device st)
  = answers xs (device st) ++ answers ys (device (clock_out xs st)).
Proof.
  revert st. induction xs as [|x xs IH]; intros st; simpl.
  - reflexivity.
  - specialize (IH (snd (SPI_transfer x st))). unfold SPI_transfer in *.
    destruct (dev_transfer (wrap8 x) (device st)) as [r d]. simpl in *.
    now rewrite IH.
Qed.

Lemma answers_length (xs : list Z) (d : Dev) :
  length (answers xs d) = length xs.
Proof.
  revert d. induction xs as [|x xs IH]; intros d; simpl.
  - reflexivity.
  - destruct (dev_transfer (wrap8 x) d) as [r d']. simpl. now rewrite IH.
Qed.

Lemma readWords_loop_run (n : nat) (fuel : nat) (len count : Z)
    (data : list Z) (st : Bus) :
  0 <= count -> len <= 127 -> len <= Z.of_nat (length data) ->
  Z.of_nat n = len - count -> (2 * n < fuel)%nat ->
  let zeros := repeat 0 (2 * n) in
  readWords_loop fuel len count true data st
  = (Ok (len, store_all data (Z.to_nat count)
                (words_of_bytes (answers zeros (device st)))),
     clock_out zeros st).
Proof.
  revert fuel count data st.
  induction n as [|n IH]; intros fuel count data st Hc Hl Hd Hn Hf zeros.
  - destruct fuel as [|fuel]; [lia|]. simpl.
    destruct (Z.ltb_spec count len); [lia|].
    replace count with len by lia. reflexivity.
  - destruct fuel as [|[|fuel]]; try lia.
    rewrite readWords_loop_word by (try apply in_bounds_true; lia).
    rewrite wrap_i8_small by lia.
    rewrite IH by (rewrite ?length_list_set; lia).
    subst zeros.
    replace (2 * S n)%nat with (2 + 2 * n)%nat by lia.
    change (repeat 0 (2 + 2 * n)) with ([0; 0] ++ repeat 0 (2 * n)).
    rewrite answers_app, clock_out_app.
    replace (Z.to_nat (count + 1)) with (S (Z.to_nat count)) by lia.
    pose proof (answers_length [0; 0] (device st)) as L.
    destruct (answers [0; 0] (device st)) as [|r1 [|r2 [|]]];
      simpl in L; try lia.
    reflexivity.
Qed.

Lemma readWords_run (g : Statics) (regAddr n : Z) (data : list Z) (st : Bus) :
  dataOrder g = MSBFIRST ->
  0 <= n <= 127 -> n <= Z.of_nat (length data) ->
  reads_high_byte_first g regAddr n data st.
Proof.
  intros Ho Hn Hd. unfold reads_high_byte_first.
  unfold readWords, framed, SPI_beginTransaction, SPI_endTransaction.
  cbv zeta. rewrite bind_emit, bind_digitalWrite.
  rewrite Ho, msbfirst_is_1. change (to_bool 1) with true.
  match goal with |- bind (SPI_transfer ?a) _ ?s = _ =>
    destruct (answers_clock_out a (repeat 0 (2 * Z.to_nat n)) s)
      as (r & E1 & E2) end.
  rewrite (bind_ok _ _ _ _ _ E1). simpl device in E2. rewrite E2.
  erewrite bind_ok
    by (apply (readWords_loop_run (Z.to_nat n)); unfold loop_fuel; lia).
  reflexivity.
Qed.

(** Within these bounds every buffer-level call is one framed transaction:
    what it adds to the log is the acquisition of the bus, the slave pin
    taken low, the address byte and the unit bytes, the slave pin taken
    high and the release of the bus.  With a count of zero the address byte
    is the only exchange. *)
Lemma framing_within_bounds (g : Statics) (regAddr n : Z) (data : list Z)
    (st : Bus) :
  0 <= n -> n <= Z.of_nat (length data) ->
  (n <= 127 ->
     emitted (readBytes g regAddr n data) st
     = framed_events g (Z.lor regAddr READ :: repeat 0 (Z.to_nat n))
         (device st))
  /\ (n <= 127 -> dataOrder g = MSBFIRST ->
      emitted (readWords g regAddr n data) st
      = framed_events g (Z.lor regAddr READ :: repeat 0 (2 * Z.to_nat n))
          (device st))
  /\ (n <= 255 ->
      emitted (writeBytes g regAddr n data) st
      = framed_events g (regAddr :: firstn (Z.to_nat n) data) (device st))
  /\ (n <= 255 ->
      emitted (writeWords g regAddr n data) st
      = framed_events g
          (regAddr :: bytes_of_words (firstn (Z.to_nat n) data)) (device st)).
Proof.
  intros Hn Hd. repeat split; intros; apply emitted_intro.
  - rewrite readBytes_run by lia. apply framed_log.
  - rewrite readWords_run by (assumption || lia). apply framed_log.
  - rewrite writeBytes_run by lia. apply framed_log.
  - rewrite writeWords_run by lia. apply framed_log.
Qed.

(** X18.  For a handle declared MSB-first.  The loop of [readWords] is
    entered in the high-byte phase.  From that phase, and for any requested
    count, two rounds make one word: the first byte received goes to bits
    15-8, the second is OR-ed into bits 7-0, and only then does the cursor
    move on, with the flag back in the high-byte phase.  A read of 1..127
    words into a buffer that has room for them returns these words in one
    framed transaction. *)
Theorem readWords_msbfirst_high_byte_first (g : Statics) :
  dataOrder g = MSBFIRST ->
  msb_phase_at_entry g
  /\ (forall fuel len count data st,
        count < len -> in_bounds data count = true ->
        readWords_loop (S (S fuel)) len count true data st
        = readWords_loop fuel len (wrap_i8 (count + 1)) true
            (list_set data (Z.to_nat count)
               (nth 0 (words_of_bytes (answers [0; 0] (device st))) 0))
            (clock_out [0; 0] st))
  /\ (forall regAddr n data st,
        1 <= n <= 127 -> n <= Z.of_nat (length data) ->
        reads_high_byte_first g regAddr n data st).
Proof.
  intros Ho. split; [|split].
  - unfold msb_phase_at_entry. rewrite Ho, msbfirst_is_1. reflexivity.
  - intros. now apply readWords_loop_word.
  - intros. apply readWords_run; [assumption | lia | assumption].
Qed.

End WordReads.

Section WordPhase.

Context {D : Device}.
#[local] Existing Instance avr.

(** On a handle declared LSB-first a one-word read exchanges a single byte
    after the address.  That byte is OR-ed into what the buffer held before
    the call and the count goes to 1: bits 15-8 of the word receive nothing
    from the bus. *)
Lemma readWords_lsbfirst_one_word (p : Z) (s : SPISettings)
    (rt regAddr w0 : Z) (st : Bus) :
  let g := mkStatics p LSBFIRST s rt in
  let outs := [Z.lor regAddr READ; 0] in
  let rs := answers outs (dev_pin p LOW (device st)) in
  readWords g regAddr 1 [w0] st
  = (Ok (1, [wrap16 (Z.lor w0 (nth 1 rs 0))]), framed g outs st).
Proof.
  intros g outs rs. subst g outs rs.
  unfold readWords, framed, SPI_beginTransaction, SPI_endTransaction, emit,
    digitalWrite, loop_fuel.
  cbn -[wrap8 wrap16 Z.lor Z.shiftl READ]. unfold bind, SPI_transfer.
  cbn -[wrap8 wrap16 Z.lor Z.shiftl READ].
  destruct (dev_transfer (wrap8 (Z.lor regAddr READ))
              (dev_pin p 0 (device st))) as [r0 d0].
  cbn -[wrap8 wrap16 Z.lor Z.shiftl READ].
  destruct (dev_transfer (wrap8 0) d0) as [r1 d1].
  reflexivity.
Qed.

(** C3, on a handle declared LSB-first.  The loop of [readWords] takes its
    flag from the declared order and is not entered in the high-byte phase,
    against the comment on that line ("starts with MSB, then LSB").  A
    one-word read returns 1 after a single zero byte behind the address;
    the byte received is OR-ed into what the word held before the call, and
    bits 15-8 of the word are not loaded from the bus. *)
Theorem readWords_lsbfirst_starts_in_low_phase (p : Z) (s : SPISettings)
    (rt regAddr w0 : Z) (st : Bus) :
  let g := mkStatics p LSBFIRST s rt in
  let outs := [Z.lor regAddr READ; 0] in
  let rs := answers outs (dev_pin p LOW (device st)) in
  ~ msb_phase_at_entry g
  /\ readWords g regAddr 1 [w0] st
     = (Ok (1, [wrap16 (Z.lor w0 (nth 1 rs 0))]), framed g outs st)
  /\ sent (emitted (readWords g regAddr 1 [w0]) st)
     = [wrap8 (Z.lor regAddr READ); 0].
Proof.
  intros g outs rs.
  pose proof (readWords_lsbfirst_one_word p s rt regAddr w0 st) as R.
  cbv zeta in R. fold g in R. fold outs in R. fold rs in R.
  split; [|split].
  - unfold msb_phase_at_entry. simpl. discriminate.
  - exact R.
  - erewrite emitted_intro by (rewrite R; apply framed_log).
    now rewrite sent_framed_events.
Qed.

End WordPhase.

(** ** The constructor *)

Section Construction.

Context {W : Wiring} {D : Device}.

Lemma SPIdev_ctor_run (slavePin bitOrder : Z) (s : SPISettings)
    (g : Statics) (st : Bus) :
  SPIdev_ctor slavePin s bitOrder g st
  = (Ok (mkStatics (wrap8 slavePin) (wrap8 bitOrder) (settings g)
           (readTimeout g)),
     mkBus (device st)
       (trace st ++ [PinMode (wrap8 slavePin) OUTPUT; SPIBegin])).
Proof.
  unfold SPIdev_ctor, pinMode, SPI_begin. cbv zeta.
  rewrite !bind_emit. unfold ret. simpl. now rewrite <- app_assoc.
Qed.

Lemma readBytes_opens (g : Statics) (regAddr len : Z) (data : list Z)
    (st : Bus) :
  address_first g (wrap8 (Z.lor regAddr READ))
    (emitted (readBytes g regAddr len data) st).
Proof. unfold readBytes. cbv zeta. apply opening. appends_step. Qed.

(** C6, as the constructor is written.  It stores the slave pin and the
    declared bit order, and leaves the static member [settings] as it was:
    a transaction issued afterwards acquires the bus with the old value, not
    with the configuration passed to the constructor. *)
Theorem constructor_leaves_settings (slavePin bitOrder : Z) (s : SPISettings)
    (g : Statics) (st : Bus) :
  exists g' st',
    SPIdev_ctor slavePin s bitOrder g st = (Ok g', st')
    /\ slave g' = wrap8 slavePin
    /\ dataOrder g' = wrap8 bitOrder
    /\ settings g' = settings g
    /\ forall regAddr len data,
         hd_error (emitted (readBytes g' regAddr len data) st')
         = Some (BeginTransaction (settings g)).
Proof.
  eexists. eexists. split; [apply SPIdev_ctor_run|].
  repeat split. intros regAddr len data.
  match goal with |- context [emitted (readBytes ?h _ _ _) ?t] =>
    destruct (readBytes_opens h regAddr len data t) as (r & rest & E) end.
  rewrite E. reflexivity.
Qed.

End Construction.

(** ** Read-modify-write *)

Section ReadModifyWrite.

Context {W : Wiring} {D : Device}.

(** With the reads of the class the short circuit of [writeBits] is never
    taken: [readByte] reports one unit from every bus state. *)
Lemma writeBits_reports_success (g : Statics)
    (regAddr bitStart len data b0 : Z) (st : Bus) :
  fst (writeBits g regAddr bitStart len data b0 st) = Ok true.
Proof.
  unfold writeBits, writeBits_over.
  erewrite bind_ok by apply readByte_run.
  cbv beta iota. change (negb (1 =? 0)) with true. cbv iota.
  now rewrite writeByte_run.
Qed.


(** C10.  [writeBit] and [writeBitW] drop the count their read returns:
    whatever it is, zero included, they write the unit with the bit set or
    cleared, in one framed transaction of the address and that unit, and
    return what that write returns, which is [true]. *)
Theorem writeBit_ignores_read_count (g : Statics) (rd : Z -> Z -> M (Z * Z))
    (regAddr bitNum data u0 c u : Z) (st st' : Bus) :
  rd regAddr u0 st = (Ok (c, u), st') ->
  let bit := Z.shiftl 1 bitNum in
  let u' := if to_bool data then Z.lor u bit else Z.land u (Z.lnot bit) in
  writeBit_over rd (writeByte g) regAddr bitNum data u0 st
  = writeByte g regAddr (wrap8 u') st'
  /\ writeBitW_over rd (writeWord g) regAddr bitNum data u0 st
     = writeWord g regAddr (wrap16 u') st'
  /\ writeBit_over rd (writeByte g) regAddr bitNum data u0 st
     = (Ok true, framed g [regAddr; wrap8 u'] st')
  /\ writeBitW_over rd (writeWord g) regAddr bitNum data u0 st
     = (Ok true,
        framed g [regAddr; wrap8 (Z.shiftr (wrap16 u') 8); wrap8 (wrap16 u')]
          st')
  /\ fst (writeBit_over rd (writeByte g) regAddr bitNum data u0 st) = Ok true
  /\ fst (writeBitW_over rd (writeWord g) regAddr bitNum data u0 st) = Ok true.
Proof.
  intros E bit u'. unfold writeBit_over, writeBitW_over.
  rewrite !(bind_ok _ _ _ _ _ E). fold bit. fold u'.
  rewrite writeByte_run, writeWord_run. repeat split.
Qed.

End ReadModifyWrite.

(** ** The I2Cdev-shaped overloads *)

Section Overloads.

Context {W : Wiring} {D : Device}.

(** C9.  Take two calls of an overload that differ in [devAddr], in
    [timeout] (given or defaulted) and in the value of the static
    [readTimeout], and in nothing else: they are the same computation, so
    they return the same value and put the same traffic on the bus from
    every bus state.  The same holds for the functions without [devAddr]
    when only [readTimeout] differs. *)
Theorem overloads_ignore_devAddr_and_timeout (g : Statics)
    (rt d1 d2 : Z) (t1 t2 : option Z)
    (regAddr bitNum bitStart len v u0 x0 : Z) (buf : list Z) :
  let g' := mkStatics (slave g) (dataOrder g) (settings g) rt in
  (readBit_dev g' d1 regAddr bitNum u0 t1
     = readBit_dev g d2 regAddr bitNum u0 t2
   /\ readBitW_dev g' d1 regAddr bitNum u0 t1
      = readBitW_dev g d2 regAddr bitNum u0 t2
   /\ readBits_dev g' d1 regAddr bitStart len x0 u0 t1
      = readBits_dev g d2 regAddr bitStart len x0 u0 t2
   /\ readBitsW_dev g' d1 regAddr bitStart len x0 u0 t1
      = readBitsW_dev g d2 regAddr bitStart len x0 u0 t2
   /\ readByte_dev g' d1 regAddr u0 t1 = readByte_dev g d2 regAddr u0 t2
   /\ readWord_dev g' d1 regAddr u0 t1 = readWord_dev g d2 regAddr u0 t2
   /\ readBytes_dev g' d1 regAddr len buf t1
      = readBytes_dev g d2 regAddr len buf t2
   /\ readWords_dev g' d1 regAddr len buf t1
      = readWords_dev g d2 regAddr len buf t2)
  /\ (writeBit_dev g' d1 regAddr bitNum v u0
        = writeBit_dev g d2 regAddr bitNum v u0
      /\ writeBitW_dev g' d1 regAddr bitNum v u0
         = writeBitW_dev g d2 regAddr bitNum v u0
      /\ writeBits_dev g' d1 regAddr bitStart len v u0
         = writeBits_dev g d2 regAddr bitStart len v u0
      /\ writeBitsW_dev g' d1 regAddr bitStart len v u0
         = writeBitsW_dev g d2 regAddr bitStart len v u0
      /\ writeByte_dev g' d1 regAddr v = writeByte_dev g d2 regAddr v
      /\ writeWord_dev g' d1 regAddr v = writeWord_dev g d2 regAddr v
      /\ writeBytes_dev g' d1 regAddr len buf
         = writeBytes_dev g d2 regAddr len buf
      /\ writeWords_dev g' d1 regAddr len buf
         = writeWords_dev g d2 regAddr len buf)
  /\ (readBit g' regAddr bitNum u0 = readBit g regAddr bitNum u0
      /\ readBitW g' regAddr bitNum u0 = readBitW g regAddr bitNum u0
      /\ readBits g' regAddr bitStart len x0 u0
         = readBits g regAddr bitStart len x0 u0
      /\ readBitsW g' regAddr bitStart len x0 u0
         = readBitsW g regAddr bitStart len x0 u0
      /\ readByte g' regAddr u0 = readByte g regAddr u0
      /\ readWord g' regAddr u0 = readWord g regAddr u0
      /\ readBytes g' regAddr len buf = readBytes g regAddr len buf
      /\ readWords g' regAddr len buf = readWords g regAddr len buf)
  /\ (writeBit g' regAddr bitNum v u0 = writeBit g regAddr bitNum v u0
      /\ writeBitW g' regAddr bitNum v u0 = writeBitW g regAddr bitNum v u0
      /\ writeBits g' regAddr bitStart len v u0
         = writeBits g regAddr bitStart len v u0
      /\ writeBitsW g' regAddr bitStart len v u0
         = writeBitsW g regAddr bitStart len v u0
      /\ writeByte g' regAddr v = writeByte g regAddr v
      /\ writeWord g' regAddr v = writeWord g regAddr v
      /\ writeBytes g' regAddr len buf = writeBytes g regAddr len buf
      /\ writeWords g' regAddr len buf = writeWords g regAddr len buf).
Proof.
  intros g'. repeat split.
Qed.

End Overloads.

(** ** The statements at sample inputs *)

Lemma address_byte_on_the_wire_witness :
  0 <= 0x20 <= 127
  /\ (address_first sample_msb (Z.lor 0x20 0x80)
        (emitted (readBytes sample_msb 0x20 2 [0; 0]) counting_bus)
      /\ address_first sample_msb (Z.lor 0x20 0x80)
           (emitted (readWords sample_msb 0x20 2 [0; 0]) counting_bus)
      /\ address_first sample_msb 0x20
           (emitted (writeBytes sample_msb 0x20 2 [0; 0]) counting_bus)
      /\ address_first sample_msb 0x20
           (emitted (writeWords sample_msb 0x20 2 [0; 0]) counting_bus)).
Proof.
  split; [lia|].
  apply (address_byte_on_the_wire sample_msb 0x20 2 [0; 0] counting_bus). lia.
Defined.

Lemma writeBits_readBits_round_trip_witness :
  0 <= 0x10 <= 127 /\ 1 <= 3 <= 8 /\ 3 - 1 <= 4 <= 7 /\ 0 <= 0xAF <= 255
  /\ (let st := latch_bus 0xAF in
      let st1 := snd (writeBits sample_msb 0x10 4 3 2 0 st) in
      let written := latch_reg (device st1) in
      fst (writeBits sample_msb 0x10 4 3 2 0 st) = Ok true
      /\ fst (readBits sample_msb 0x10 4 3 0 0 st1) = Ok (1, 2 mod 2 ^ 3)
      /\ sent (emitted (writeBits sample_msb 0x10 4 3 2 0) st)
         = [Z.lor 0x10 0x80; 0; 0x10; written]
      /\ (forall i, 0 <= i -> ~ (4 - 3 + 1 <= i <= 4) ->
            Z.testbit written i = Z.testbit 0xAF i)).
Proof.
  repeat (split; [lia|]).
  apply (writeBits_readBits_round_trip (W := avr) sample_msb
           0x10 4 3 2 0xAF 0 0 0 AwaitAddress []); lia.
Defined.

Lemma writeWords_high_byte_first_witness :
  0 <= 2 <= 255 /\ 2 = Z.of_nat (length [0x1234; 0xABCD])
  /\ (emitted (writeWords sample_lsb 5 2 [0x1234; 0xABCD]) counting_bus
      = framed_events sample_lsb (5 :: bytes_of_words [0x1234; 0xABCD])
          (device counting_bus)
      /\ sent (emitted (writeWords sample_lsb 5 2 [0x1234; 0xABCD])
                 counting_bus)
         = wrap8 5 :: bytes_of_words [0x1234; 0xABCD]
      /\ (forall order,
            writeWords
              (mkStatics (slave sample_lsb) order (settings sample_lsb)
                 (readTimeout sample_lsb)) 5 2 [0x1234; 0xABCD] counting_bus
            = writeWords sample_lsb 5 2 [0x1234; 0xABCD] counting_bus)
      /\ sent (emitted
           (writeWord
              (mkStatics (slave sample_lsb) (@MSBFIRST avr)
                 (settings sample_lsb) (readTimeout sample_lsb))
              0x05 0xABCD) counting_bus)
         = [0x05; 0xAB; 0xCD]).
Proof.
  split; [lia|]. split; [reflexivity|].
  apply (writeWords_high_byte_first sample_lsb 5 2 [0x1234; 0xABCD]
           counting_bus);
    [lia | reflexivity].
Defined.

Lemma writes_report_success_witness :
  (0 <= 3 <= 255 /\ 3 <= Z.of_nat (length [1; 2; 3]))
  /\ ((forall b, fst (writeBytes sample_msb 7 3 [1; 2; 3] counting_bus) = Ok b
                 -> b = true)
      /\ (forall b,
            fst (writeWords sample_msb 7 3 [1; 2; 3] counting_bus) = Ok b ->
            b = true)
      /\ (0 <= 3 <= 255 -> 3 <= Z.of_nat (length [1; 2; 3]) ->
          fst (writeBytes sample_msb 7 3 [1; 2; 3] counting_bus) = Ok true
          /\ fst (writeWords sample_msb 7 3 [1; 2; 3] counting_bus) = Ok true)).
Proof.
  split; [split; [lia | simpl; lia]|].
  apply (writes_report_success sample_msb 7 3 [1; 2; 3] counting_bus).
Defined.

Lemma long_read_leaves_chip_selected_witness :
  128 <= 200
  /\ (left_selected sample_msb
        (readBytes sample_msb 0 200 (repeat 0 200)) counting_bus
      /\ left_selected sample_msb
           (readWords sample_msb 0 200 (repeat 0 200)) counting_bus).
Proof.
  split; [lia|].
  apply (long_read_leaves_chip_selected sample_msb 0 200 (repeat 0 200)
           counting_bus). lia.
Defined.


Lemma writeBit_ignores_read_count_witness :
  silent_read 16 0 counting_bus = (Ok (0, 0), counting_bus)
  /\ fst (writeBit_over silent_read (writeByte sample_msb) 16 5 1 0
            counting_bus) = Ok true
  /\ fst (writeBitW_over silent_read (writeWord sample_msb) 16 5 1 0
            counting_bus) = Ok true.
Proof.
  split; [reflexivity|].
  apply (writeBit_ignores_read_count sample_msb silent_read 16 5 1 0 0 0
           counting_bus counting_bus eq_refl).
Defined.

Lemma readWords_msbfirst_high_byte_first_witness :
  @MSBFIRST avr = 1 /\ @LSBFIRST avr = 0
  /\ dataOrder sample_msb = @MSBFIRST avr
  /\ msb_phase_at_entry sample_msb
  /\ reads_high_byte_first sample_msb 5 2 [0; 0] counting_bus.
Proof.
  split; [reflexivity|]. split; [reflexivity|]. split; [reflexivity|].
  destruct (readWords_msbfirst_high_byte_first (W := avr)
              (D := counting_device) eq_refl eq_refl sample_msb eq_refl)
    as (Hentry & _ & Hrun).
  split; [exact Hentry|].
  apply Hrun; simpl; lia.
Defined.

(** At a sample input, on a handle declared LSB-first: the loop is not entered
    in the high-byte phase, and a one-word read is not the high-byte-first
    read of two bytes.  It exchanges one byte after the address (the device
    answers 2) and returns the word 2. *)
Lemma readWords_lsbfirst_counterexample :
  ~ msb_phase_at_entry sample_lsb
  /\ ~ reads_high_byte_first sample_lsb 5 1 [0] counting_bus
  /\ fst (readWords sample_lsb 5 1 [0] counting_bus) = Ok (1, [2])
  /\ sent (emitted (readWords sample_lsb 5 1 [0]) counting_bus) = [133; 0].
Proof.
  split; [|split; [|split]].
  - unfold msb_phase_at_entry. vm_compute. discriminate.
  - unfold reads_high_byte_first. vm_compute. discriminate.
  - vm_compute. reflexivity.
  - vm_compute. reflexivity.
Qed.

(** A read of 128 bytes into a buffer of 128 bytes: after the address and
    129 more exchanges the store at index -128 is outside the buffer; the
    slave pin is still low. *)
Example readBytes_128_on_counting_device :
  fst (readBytes sample_msb 0 128 (repeat 0 128) counting_bus) = Fault
  /\ length (sent (emitted (readBytes sample_msb 0 128 (repeat 0 128))
                     counting_bus)) = 130%nat
  /\ last (emitted (readBytes sample_msb 0 128 (repeat 0 128)) counting_bus)
          EndTransaction
     = Transfer 0 130.
Proof. vm_compute. repeat split. Qed.

(** The same read of 127 bytes returns, and ends with the slave pin
    taken high and the bus released. *)
Example readBytes_127_on_counting_device :
  fst (readBytes sample_msb 0 127 (repeat 0 127) counting_bus)
  = Ok (127, map (fun n => Z.of_nat n + 2) (seq 0 127))
  /\ skipn 130 (emitted (readBytes sample_msb 0 127 (repeat 0 127))
                  counting_bus)
     = [DigitalWrite 10 1; EndTransaction].
Proof. vm_compute. split; reflexivity. Qed.

(** The constructor called with 1 MHz, MSB-first, mode 3 on a class whose
    static [settings] holds the default: the static is unchanged, and the
    next transaction is opened with the default. *)
Example constructor_on_sample :
  let r := @SPIdev_ctor avr counting_device 10 (1000000, 1, 3) 1
             sample_lsb counting_bus in
  fst r = Ok sample_msb
  /\ hd_error (emitted (readByte sample_msb 0 0) (snd r))
     = Some (@BeginTransaction avr (4000000, 1, 0)).
Proof. vm_compute. split; reflexivity. Qed.

(** * Further properties of the buffer-level calls *)

Lemma store_all_shift (rs data : list Z) (x : Z) (i : nat) :
  store_all (x :: data) (S i) rs = x :: store_all data i rs.
Proof.
  revert data i. induction rs as [|r rs IH]; intros data i; simpl.
  - reflexivity.
  - apply IH.
Qed.

Lemma store_all_prefix (rs data : list Z) :
  (length rs <= length data)%nat ->
  store_all data 0 rs = rs ++ skipn (length rs) data.
Proof.
  revert data. induction rs as [|r rs IH]; intros data H; simpl in *.
  - reflexivity.
  - destruct data as [|x data]; simpl in *; [lia|].
    rewrite store_all_shift, IH by lia. reflexivity.
Qed.

Section BufferCalls.

Context {W : Wiring} {D : Device}.

Lemma answers_tl_length (o : Z) (outs : list Z) (d : Dev) :
  length (tl (answers (o :: outs) d)) = length outs.
Proof.
  simpl. destruct (dev_transfer (wrap8 o) d) as [r d']. simpl.
  apply answers_length.
Qed.

Lemma map_wrap8_zeros (n : nat) : map wrap8 (repeat 0 n) = repeat 0 n.
Proof. induction n as [|n IH]; simpl; [reflexivity | now rewrite IH]. Qed.

(** X1.  A read of [n] bytes, [n] in 0..127, into a buffer that has room
    for them returns [n]; the buffer then starts with the [n] bytes the
    device answered, in the order received, and keeps what it held beyond
    them.  The call is one framed transaction in which the address with the
    read bit is followed by [n] zero bytes. *)
Theorem readBytes_fills_the_buffer (g : Statics) (regAddr n : Z)
    (data : list Z) (st : Bus) :
  0 <= n <= 127 -> n <= Z.of_nat (length data) ->
  let outs := Z.lor regAddr READ :: repeat 0 (Z.to_nat n) in
  let rs := tl (answers outs (dev_pin (slave g) LOW (device st))) in
  fst (readBytes g regAddr n data st) = Ok (n, rs ++ skipn (Z.to_nat n) data)
  /\ length rs = Z.to_nat n
  /\ emitted (readBytes g regAddr n data) st
     = framed_events g outs (device st)
  /\ sent (emitted (readBytes g regAddr n data) st)
     = wrap8 (Z.lor regAddr READ) :: repeat 0 (Z.to_nat n).
Proof.
  intros Hn Hd outs rs.
  assert (L : length rs = Z.to_nat n).
  { subst rs outs. now rewrite answers_tl_length, repeat_length. }
  assert (E : emitted (readBytes g regAddr n data) st
              = framed_events g outs (device st)).
  { apply emitted_intro. rewrite readBytes_run by lia. apply framed_log. }
  split; [|split; [exact L|split; [exact E|]]].
  - pose proof (readBytes_run g regAddr n data st ltac:(lia) Hd) as R.
    cbv zeta in R. rewrite R. cbn [fst].
    assert (Hr : (length rs <= length data)%nat) by (rewrite L; lia).
    pose proof (store_all_prefix rs data Hr) as P. rewrite L in P.
    subst rs outs. now rewrite P.
  - rewrite E, sent_framed_events. subst outs. simpl.
    now rewrite map_wrap8_zeros.
Qed.

(** X2.  A write of [n] units, [n] in 0..255, from a buffer of at least
    [n] units returns [true] and is one framed transaction: the address
    byte as given, then the first [n] bytes of the buffer in order (for
    words, the high and the low byte of each of the first [n] words).
    Units of the buffer beyond the first [n] are not sent. *)
Theorem writes_send_the_first_units (g : Statics) (regAddr n : Z)
    (data : list Z) (st : Bus) :
  0 <= n <= 255 -> n <= Z.of_nat (length data) ->
  let units := firstn (Z.to_nat n) data in
  fst (writeBytes g regAddr n data st) = Ok true
  /\ fst (writeWords g regAddr n data st) = Ok true
  /\ emitted (writeBytes g regAddr n data) st
     = framed_events g (regAddr :: units) (device st)
  /\ sent (emitted (writeBytes g regAddr n data) st)
     = wrap8 regAddr :: map wrap8 units
  /\ emitted (writeWords g regAddr n data) st
     = framed_events g (regAddr :: bytes_of_words units) (device st)
  /\ sent (emitted (writeWords g regAddr n data) st)
     = wrap8 regAddr :: bytes_of_words units
  /\ length (sent (emitted (writeWords g regAddr n data) st))
     = S (2 * Z.to_nat n).
Proof.
  intros Hn Hd units.
  assert (Eb : emitted (writeBytes g regAddr n data) st
               = framed_events g (regAddr :: units) (device st)).
  { apply emitted_intro. rewrite writeBytes_run by lia. apply framed_log. }
  assert (Ew : emitted (writeWords g regAddr n data) st
               = framed_events g (regAddr :: bytes_of_words units) (device st)).
  { apply emitted_intro. rewrite writeWords_run by lia. apply framed_log. }
  assert (Sw : sent (emitted (writeWords g regAddr n data) st)
               = wrap8 regAddr :: bytes_of_words units).
  { rewrite Ew, sent_framed_events. simpl.
    now rewrite map_wrap8_bytes_of_words. }
  repeat split.
  - now rewrite writeBytes_run by lia.
  - now rewrite writeWords_run by lia.
  - exact Eb.
  - now rewrite Eb, sent_framed_events.
  - exact Ew.
  - exact Sw.
  - rewrite Sw. simpl. f_equal. unfold bytes_of_words.
    assert (Lu : length units = Z.to_nat n).
    { subst units. rewrite length_firstn. lia. }
    rewrite <- Lu. clear. induction units as [|u us IH]; simpl; [reflexivity|].
    rewrite IH. lia.
Qed.

(** X3.  A request for zero units is legal whatever the buffer, the handle
    and the device: the reads return 0 and leave the buffer as it is, the
    writes return [true], and in each case the transaction holds the address
    byte alone between the two writes of the slave pin. *)
Theorem zero_length_requests (g : Statics) (regAddr : Z) (data : list Z)
    (st : Bus) :
  readBytes g regAddr 0 data st
  = (Ok (0, data), framed g [Z.lor regAddr READ] st)
  /\ readWords g regAddr 0 data st
     = (Ok (0, data), framed g [Z.lor regAddr READ] st)
  /\ writeBytes g regAddr 0 data st = (Ok true, framed g [regAddr] st)
  /\ writeWords g regAddr 0 data st = (Ok true, framed g [regAddr] st)
  /\ emitted (readBytes g regAddr 0 data) st
     = framed_events g [Z.lor regAddr READ] (device st).
Proof.
  assert (R : readBytes g regAddr 0 data st
              = (Ok (0, data), framed g [Z.lor regAddr READ] st)).
  { rewrite readBytes_run by lia. simpl.
    destruct (dev_transfer _ _). reflexivity. }
  repeat split.
  - exact R.
  - unfold readWords, framed, SPI_beginTransaction, SPI_endTransaction,
      loop_fuel.
    cbv zeta. rewrite bind_emit, bind_digitalWrite.
    match goal with |- bind (SPI_transfer ?a) _ ?s = _ =>
      destruct (SPI_transfer_ok a s) as [r E] end.
    rewrite (bind_ok _ _ _ _ _ E). reflexivity.
  - now rewrite writeBytes_run by lia.
  - now rewrite writeWords_run by lia.
  - apply emitted_intro. rewrite R. apply framed_log.
Qed.

End BufferCalls.

(** * Word reads for either declared order *)

Lemma words_of_bytes_length (k : nat) (rs : list Z) :
  length rs = (2 * k)%nat -> length (words_of_bytes rs) = k.
Proof.
  revert rs. induction k as [|k IH]; intros rs H.
  - destruct rs; [reflexivity | simpl in H; lia].
  - destruct rs as [|hi [|lo rs]]; simpl in H; try lia.
    simpl. f_equal. apply IH. lia.
Qed.

Section EitherOrder.

Context {W : Wiring} {D : Device}.

Hypothesis msbfirst_is_1 : MSBFIRST = 1.
Hypothesis lsbfirst_is_0 : LSBFIRST = 0.

(** Any declared order other than zero starts the loop in the high-byte
    phase. *)
Lemma readWords_run_high (g : Statics) (regAddr n : Z) (data : list Z)
    (st : Bus) :
  to_bool (dataOrder g) = true ->
  0 <= n <= 127 -> n <= Z.of_nat (length data) ->
  reads_high_byte_first g regAddr n data st.
Proof.
  intros Ho Hn Hd. unfold reads_high_byte_first.
  unfold readWords, framed, SPI_beginTransaction, SPI_endTransaction.
  cbv zeta. rewrite bind_emit, bind_digitalWrite. rewrite Ho.
  match goal with |- bind (SPI_transfer ?a) _ ?s = _ =>
    destruct (answers_clock_out a (repeat 0 (2 * Z.to_nat n)) s)
      as (r & E1 & E2) end.
  rewrite (bind_ok _ _ _ _ _ E1). simpl device in E2. rewrite E2.
  erewrite bind_ok
    by (apply (readWords_loop_run msbfirst_is_1 lsbfirst_is_0 (Z.to_nat n));
        unfold loop_fuel; lia).
  reflexivity.
Qed.

(** One round of the loop from the low-byte phase. *)
Lemma readWords_loop_low_round (fuel : nat) (len count : Z) (data : list Z)
    (st : Bus) :
  count < len -> in_bounds data count = true ->
  readWords_loop (S fuel) len count false data st
  = readWords_loop fuel len (wrap_i8 (count + 1)) true
      (list_set data (Z.to_nat count)
         (wrap16 (Z.lor (nth (Z.to_nat count) data 0)
                    (nth 0 (answers [0] (device st)) 0))))
      (clock_out [0] st).
Proof.
  intros Hlt Hin. cbn [readWords_loop].
  destruct (Z.ltb_spec count len) as [_|]; [|lia].
  rewrite msbfirst_is_1.
  change (Z.b2z false =? 1) with false. change (to_bool 1) with true.
  cbv iota.
  unfold bind, SPI_transfer, store, load. cbn [answers clock_out snd].
  unfold SPI_transfer.
  destruct (dev_transfer (wrap8 0) (device st)) as [r1 d1].
  rewrite Hin. reflexivity.
Qed.

(** A declared order of zero starts it in the low-byte phase: the first
    word takes one byte, every later word two. *)
Lemma readWords_run_low (g : Statics) (regAddr n : Z) (data : list Z)
    (st : Bus) :
  to_bool (dataOrder g) = false ->
  1 <= n <= 127 -> n <= Z.of_nat (length data) ->
  let outs := Z.lor regAddr READ :: repeat 0 (2 * Z.to_nat n - 1) in
  let rs := tl (answers outs (dev_pin (slave g) LOW (device st))) in
  readWords g regAddr n data st
  = (Ok (n, store_all
              (list_set data 0 (wrap16 (Z.lor (nth 0 data 0) (nth 0 rs 0))))
              1 (words_of_bytes (tl rs))),
     framed g outs st).
Proof.
  intros Ho Hn Hd outs rs. subst rs outs.
  unfold readWords, framed, SPI_beginTransaction, SPI_endTransaction.
  cbv zeta. rewrite bind_emit, bind_digitalWrite. rewrite Ho.
  replace (2 * Z.to_nat n - 1)%nat with (S (2 * (Z.to_nat n - 1))) by lia.
  set (zeros := repeat 0 (2 * (Z.to_nat n - 1))).
  change (repeat 0 (S (2 * (Z.to_nat n - 1)))) with ([0] ++ zeros).
  match goal with |- bind (SPI_transfer ?a) _ ?s = _ =>
    destruct (answers_clock_out a ([0] ++ zeros) s) as (r & E1 & E2) end.
  rewrite (bind_ok _ _ _ _ _ E1). simpl device in E2. rewrite E2.
  cbn [tl clock_out]. rewrite answers_app, clock_out_app.
  unfold loop_fuel.
  erewrite bind_ok.
  2:{ rewrite readWords_loop_low_round by (try apply in_bounds_true; lia).
      rewrite wrap_i8_small by lia.
      apply (readWords_loop_run msbfirst_is_1 lsbfirst_is_0 (Z.to_nat n - 1));
        rewrite ?length_list_set; lia. }
  fold zeros. cbn [device trace].
  match goal with |- context [answers [0] ?d] =>
    pose proof (answers_length [0] d) as L;
    destruct (answers [0] d) as [|r1 [|]]; simpl in L; try lia end.
  reflexivity.
Qed.

End EitherOrder.

Section EitherOrderResults.

Context {W : Wiring} {D : Device}.

Hypothesis msbfirst_is_1 : MSBFIRST = 1.
Hypothesis lsbfirst_is_0 : LSBFIRST = 0.

(** X4.  On a handle declared LSB-first a read of [n] words, [n] in
    1..127, returns [n] after exchanging [2n - 1] zero bytes behind the
    address, one short of two a word.  The first byte received is OR-ed
    into what the first word of the buffer held before the call; the bytes
    after it make the words 2..n, high byte first. *)
Theorem readWords_lsbfirst_run (g : Statics) (regAddr n : Z)
    (data : list Z) (st : Bus) :
  dataOrder g = LSBFIRST ->
  1 <= n <= 127 -> n <= Z.of_nat (length data) ->
  let outs := Z.lor regAddr READ :: repeat 0 (2 * Z.to_nat n - 1) in
  let rs := tl (answers outs (dev_pin (slave g) LOW (device st))) in
  fst (readWords g regAddr n data st)
  = Ok (n, wrap16 (Z.lor (nth 0 data 0) (nth 0 rs 0))
           :: words_of_bytes (tl rs) ++ skipn (Z.to_nat n) data)
  /\ emitted (readWords g regAddr n data) st
     = framed_events g outs (device st)
  /\ length (sent (emitted (readWords g regAddr n data) st))
     = (2 * Z.to_nat n)%nat.
Proof.
  intros Ho Hn Hd outs rs.
  assert (Hb : to_bool (dataOrder g) = false)
    by (rewrite Ho, lsbfirst_is_0; reflexivity).
  pose proof (readWords_run_low msbfirst_is_1 lsbfirst_is_0
                g regAddr n data st Hb Hn Hd) as R.
  cbv zeta in R. fold outs in R. fold rs in R.
  assert (E : emitted (readWords g regAddr n data) st
              = framed_events g outs (device st)).
  { apply emitted_intro. rewrite R. apply framed_log. }
  split; [|split; [exact E|]].
  - rewrite R. cbn [fst]. do 2 f_equal.
    assert (Lr : length rs = (2 * Z.to_nat n - 1)%nat).
    { subst rs outs. now rewrite answers_tl_length, repeat_length. }
    assert (Lw : length (words_of_bytes (tl rs)) = (Z.to_nat n - 1)%nat).
    { apply words_of_bytes_length. destruct rs; simpl in *; lia. }
    destruct data as [|x data]; [simpl in Hd; lia|].
    cbn [list_set nth]. rewrite store_all_shift.
    rewrite store_all_prefix by (simpl in Hd; lia).
    rewrite Lw.
    replace (Z.to_nat n) with (S (Z.to_nat n - 1)) at 2 by lia.
    reflexivity.
  - rewrite E, sent_framed_events, length_map. subst outs. simpl.
    rewrite repeat_length. lia.
Qed.

(** X5.  Only whether the declared order is zero matters to [readWords]:
    with any other value, [MSBFIRST] or not, a read of 0..127 words is the
    high-byte-first read of two bytes a word. *)
Theorem readWords_nonzero_order_reads_high_byte_first (g : Statics)
    (regAddr n : Z) (data : list Z) (st : Bus) :
  dataOrder g <> 0 ->
  0 <= n <= 127 -> n <= Z.of_nat (length data) ->
  reads_high_byte_first g regAddr n data st
  /\ fst (readWords g regAddr n data st)
     = Ok (n,
           words_of_bytes
             (tl (answers (Z.lor regAddr READ :: repeat 0 (2 * Z.to_nat n))
                    (dev_pin (slave g) LOW (device st))))
           ++ skipn (Z.to_nat n) data).
Proof.
  intros Ho Hn Hd.
  assert (Hb : to_bool (dataOrder g) = true).
  { unfold to_bool. destruct (Z.eqb_spec (dataOrder g) 0); [contradiction|].
    reflexivity. }
  pose proof (readWords_run_high msbfirst_is_1 lsbfirst_is_0
                g regAddr n data st Hb Hn Hd) as R.
  split; [exact R|].
  unfold reads_high_byte_first in R. cbv zeta in R. rewrite R. cbn [fst].
  do 2 f_equal.
  match goal with |- store_all data 0 (words_of_bytes ?l) = _ =>
    assert (Lw : length (words_of_bytes l) = Z.to_nat n) end.
  { apply words_of_bytes_length.
    now rewrite answers_tl_length, repeat_length. }
  rewrite store_all_prefix by lia. now rewrite Lw.
Qed.

(** X6.  The reads the read-modify-write functions start with report one
    unit from every bus state, for either declared order, so none of
    [writeBit], [writeBitW], [writeBits] and [writeBitsW] ever returns
    [false]: the early exit of [writeBits] and [writeBitsW] is never
    taken. *)
Theorem read_modify_write_reports_success (g : Statics)
    (regAddr bitNum bitStart len v u0 : Z) (st : Bus) :
  (exists b, fst (readByte g regAddr u0 st) = Ok (1, b))
  /\ (exists w, fst (readWord g regAddr u0 st) = Ok (1, w))
  /\ fst (writeBit g regAddr bitNum v u0 st) = Ok true
  /\ fst (writeBitW g regAddr bitNum v u0 st) = Ok true
  /\ fst (writeBits g regAddr bitStart len v u0 st) = Ok true
  /\ fst (writeBitsW g regAddr bitStart len v u0 st) = Ok true.
Proof.
  assert (Hw : exists w st', readWord g regAddr u0 st = (Ok (1, w), st')).
  { unfold readWord. destruct (to_bool (dataOrder g)) eqn:Hb.
    - pose proof (readWords_run_high msbfirst_is_1 lsbfirst_is_0
                    g regAddr 1 [u0] st Hb ltac:(lia) ltac:(simpl; lia)) as R.
      unfold reads_high_byte_first in R. cbv zeta in R.
      rewrite (bind_ok _ _ _ _ _ R). unfold ret. eauto.
    - pose proof (readWords_run_low msbfirst_is_1 lsbfirst_is_0
                    g regAddr 1 [u0] st Hb ltac:(lia) ltac:(simpl; lia)) as R.
      cbv zeta in R. rewrite (bind_ok _ _ _ _ _ R). unfold ret. eauto. }
  destruct Hw as (w & st' & Ew).
  pose proof (readByte_run g regAddr u0 st) as Eb. cbv zeta in Eb.
  split; [|split; [|split; [|split; [|split]]]].
  - rewrite Eb. eexists. reflexivity.
  - rewrite Ew. eexists. reflexivity.
  - unfold writeBit, writeBit_over. rewrite (bind_ok _ _ _ _ _ Eb).
    now rewrite writeByte_run.
  - unfold writeBitW, writeBitW_over. rewrite (bind_ok _ _ _ _ _ Ew).
    now rewrite writeWord_run.
  - unfold writeBits, writeBits_over. rewrite (bind_ok _ _ _ _ _ Eb).
    change (negb (1 =? 0)) with true. cbv iota. now rewrite writeByte_run.
  - unfold writeBitsW, writeBitsW_over. rewrite (bind_ok _ _ _ _ _ Ew).
    change (negb (1 =? 0)) with true. cbv iota. now rewrite writeWord_run.
Qed.

End EitherOrderResults.

(** * Bits of a byte register *)

Lemma masked_bit (b n : Z) :
  0 <= n <= 7 ->
  wrap8 (Z.land b (Z.shiftl 1 n)) = if Z.testbit b n then 2 ^ n else 0.
Proof.
  intros Hn. rewrite Z.shiftl_1_l. apply Z.bits_inj'. intros i Hi.
  rewrite wrap8_bits, Z.land_spec, Z.pow2_bits_eqb by lia.
  destruct (Z.eqb_spec n i) as [->|Hne].
  - destruct (Z.testbit b i) eqn:Eb.
    + rewrite Z.pow2_bits_true by lia.
      destruct (Z.ltb_spec i 8); [reflexivity | lia].
    + rewrite Z.bits_0. now rewrite andb_false_r.
  - rewrite andb_false_r, andb_false_r.
    destruct (Z.testbit b n).
    + rewrite Z.pow2_bits_false by lia. reflexivity.
    + now rewrite Z.bits_0.
Qed.

Lemma extract_bits_field (bitStart len b : Z) :
  1 <= len <= 8 -> len - 1 <= bitStart <= 7 ->
  extract_bits bitStart len b = (b / 2 ^ (bitStart - len + 1)) mod 2 ^ len.
Proof.
  intros Hl Hs. unfold extract_bits. apply Z.bits_inj'. intros i Hi.
  rewrite wrap8_bits, Z.shiftr_spec, wrap8_bits, Z.land_spec by lia.
  rewrite wrap8_bits, field_mask_bits by lia.
  rewrite Z.testbit_mod_pow2 by lia.
  rewrite <- Z.shiftr_div_pow2, Z.shiftr_spec by lia.
  compare_cases; simpl; try lia;
    rewrite ?andb_true_r, ?andb_false_r; reflexivity.
Qed.

Lemma set_or_clear_bits (n v b i : Z) :
  0 <= n -> 0 <= i ->
  Z.testbit (set_or_clear n v b) i
  = (i <? 8) && (if i =? n then to_bool v else Z.testbit b i).
Proof.
  intros Hn Hi. unfold set_or_clear. rewrite wrap8_bits, Z.shiftl_1_l.
  destruct (to_bool v).
  - rewrite Z.lor_spec, Z.pow2_bits_eqb by lia. rewrite (Z.eqb_sym n i).
    destruct (i =? n); rewrite ?orb_true_r, ?orb_false_r; reflexivity.
  - rewrite Z.land_spec, Z.lnot_spec, Z.pow2_bits_eqb by lia.
    rewrite (Z.eqb_sym n i).
    destruct (i =? n); simpl; rewrite ?andb_true_r, ?andb_false_r;
      reflexivity.
Qed.

Lemma set_or_clear_merge (n v b : Z) :
  0 <= n <= 7 ->
  set_or_clear n v b = merge_bits n 1 (Z.b2z (to_bool v)) b.
Proof.
  intros Hn. apply Z.bits_inj'. intros i Hi.
  rewrite set_or_clear_bits, merge_bits_bits by lia.
  replace (n - 1 + 1) with n by lia.
  destruct (Z.eqb_spec i n) as [->|Hne].
  - rewrite Z.leb_refl. simpl. rewrite Z.sub_diag.
    destruct (to_bool v); reflexivity.
  - destruct (Z.leb_spec n i); destruct (Z.leb_spec i n); simpl;
      try reflexivity; lia.
Qed.

Section ByteBits.

Context {W : Wiring} {D : Device}.

(** X7.  [writeBits] and [writeBit] are two framed transactions, not one:
    a read of one byte at the address with the read bit, then a write of
    one byte at the address as given.  The slave pin goes high and the bus
    is released between the two, and the byte written is computed from the
    byte the first transaction read. *)
Theorem read_modify_write_is_two_transactions (g : Statics)
    (regAddr bitNum bitStart len v u0 : Z) (st : Bus) :
  let b := byte_read g regAddr st in
  let st1 := framed g [Z.lor regAddr READ; 0] st in
  writeBits g regAddr bitStart len v u0 st
  = (Ok true, framed g [regAddr; merge_bits bitStart len v b] st1)
  /\ writeBit g regAddr bitNum v u0 st
     = (Ok true, framed g [regAddr; set_or_clear bitNum v b] st1)
  /\ emitted (writeBits g regAddr bitStart len v u0) st
     = framed_events g [Z.lor regAddr READ; 0] (device st)
       ++ framed_events g [regAddr; merge_bits bitStart len v b] (device st1).
Proof.
  intros b st1.
  pose proof (readByte_run g regAddr u0 st) as Eb. cbv zeta in Eb.
  assert (E : writeBits g regAddr bitStart len v u0 st
              = (Ok true, framed g [regAddr; merge_bits bitStart len v b] st1)).
  { unfold writeBits, writeBits_over. rewrite (bind_ok _ _ _ _ _ Eb).
    change (negb (1 =? 0)) with true. cbv iota. now rewrite writeByte_run. }
  split; [exact E|split].
  - unfold writeBit, writeBit_over. rewrite (bind_ok _ _ _ _ _ Eb).
    now rewrite writeByte_run.
  - apply emitted_intro. rewrite E. cbn [snd].
    rewrite framed_log. subst st1. rewrite framed_log.
    now rewrite <- app_assoc.
Qed.

(** X8.  [readBit] reports one unit and leaves in [*data] the byte read
    with every bit but [bitNum] cleared: [1 << bitNum] when the bit is set
    and 0 when it is clear (not 1 and 0), for [bitNum] in 0..7. *)
Theorem readBit_yields_the_masked_bit (g : Statics) (regAddr bitNum u0 : Z)
    (st : Bus) :
  0 <= bitNum <= 7 ->
  let b := byte_read g regAddr st in
  readBit g regAddr bitNum u0 st
  = (Ok (1, if Z.testbit b bitNum then 2 ^ bitNum else 0),
     framed g [Z.lor regAddr READ; 0] st).
Proof.
  intros Hn b.
  pose proof (readByte_run g regAddr u0 st) as Eb. cbv zeta in Eb.
  unfold readBit. rewrite (bind_ok _ _ _ _ _ Eb).
  unfold ret. fold b. now rewrite masked_bit.
Qed.

(** X9.  For a field of [len] bits (1..8) whose top bit is [bitStart]
    ([len-1]..7), [readBits] reports one unit and leaves in [*data] the
    field of the byte read, right-aligned: the byte shifted right by
    [bitStart - len + 1] and reduced to [len] bits. *)
Theorem readBits_yields_the_field (g : Statics)
    (regAddr bitStart len d0 u0 : Z) (st : Bus) :
  1 <= len <= 8 -> len - 1 <= bitStart <= 7 ->
  let b := byte_read g regAddr st in
  readBits g regAddr bitStart len d0 u0 st
  = (Ok (1, (b / 2 ^ (bitStart - len + 1)) mod 2 ^ len),
     framed g [Z.lor regAddr READ; 0] st).
Proof.
  intros Hl Hs b.
  pose proof (readByte_run g regAddr u0 st) as Eb. cbv zeta in Eb.
  unfold readBits. rewrite (bind_ok _ _ _ _ _ Eb).
  change (negb (wrap8 1 =? 0)) with true. cbv iota.
  unfold ret. fold b. now rewrite extract_bits_field.
Qed.

(** X10.  For [bitNum] in 0..7, [writeBit] with the value [v] is
    [writeBits] on the one-bit field at [bitNum] with the value 1 if [v] is
    not zero and 0 if it is: same result, same traffic, from every bus
    state. *)
Theorem writeBit_is_writeBits_of_one_bit (g : Statics)
    (regAddr bitNum v u0 : Z) (st : Bus) :
  0 <= bitNum <= 7 ->
  writeBit g regAddr bitNum v u0 st
  = writeBits g regAddr bitNum 1 (Z.b2z (to_bool v)) u0 st.
Proof.
  intros Hn.
  pose proof (readByte_run g regAddr u0 st) as Eb. cbv zeta in Eb.
  unfold writeBit, writeBit_over, writeBits, writeBits_over.
  rewrite !(bind_ok _ _ _ _ _ Eb).
  change (negb (1 =? 0)) with true. cbv iota.
  now rewrite <- set_or_clear_merge.
Qed.

End ByteBits.

(** * Sequences of bit writes on the one-register device *)

Lemma extract_bits_bits (bitStart len x i : Z) :
  1 <= len <= 8 -> len - 1 <= bitStart <= 7 -> 0 <= i ->
  Z.testbit (extract_bits bitStart len x) i
  = (i <? len) && Z.testbit x (i + (bitStart - len + 1)).
Proof.
  intros Hl Hs Hi. rewrite extract_bits_field by lia.
  rewrite Z.testbit_mod_pow2 by lia.
  now rewrite <- Z.shiftr_div_pow2, Z.shiftr_spec by lia.
Qed.

Lemma merge_bits_same_field (bitStart len v1 v2 b : Z) :
  0 <= len -> 0 <= bitStart - len + 1 ->
  merge_bits bitStart len v2 (merge_bits bitStart len v1 b)
  = merge_bits bitStart len v2 b.
Proof.
  intros Hl Hs. apply Z.bits_inj'. intros i Hi.
  rewrite !merge_bits_bits by lia.
  compare_cases; simpl; try lia; reflexivity.
Qed.

Lemma merge_bits_disjoint (bs1 len1 v1 bs2 len2 v2 b : Z) :
  1 <= len1 -> 0 <= bs1 - len1 + 1 -> 1 <= len2 ->
  bs1 < bs2 - len2 + 1 ->
  merge_bits bs2 len2 v2 (merge_bits bs1 len1 v1 b)
  = merge_bits bs1 len1 v1 (merge_bits bs2 len2 v2 b).
Proof.
  intros Hl1 Hs1 Hl2 Hd. apply Z.bits_inj'. intros i Hi.
  rewrite !merge_bits_bits by lia.
  compare_cases; simpl; try lia; reflexivity.
Qed.

Lemma extract_other_field (bs1 len1 bs2 len2 v2 b : Z) :
  1 <= len1 <= 8 -> len1 - 1 <= bs1 <= 7 ->
  1 <= len2 <= 8 -> len2 - 1 <= bs2 <= 7 ->
  bs1 < bs2 - len2 + 1 \/ bs2 < bs1 - len1 + 1 ->
  extract_bits bs1 len1 (merge_bits bs2 len2 v2 b) = extract_bits bs1 len1 b.
Proof.
  intros Hl1 Hs1 Hl2 Hs2 Hd. apply Z.bits_inj'. intros i Hi.
  rewrite !extract_bits_bits, merge_bits_bits by lia.
  compare_cases; simpl; try lia; reflexivity.
Qed.

Section LatchSequences.

Context {W : Wiring}.
#[local] Existing Instance latch_device.

Lemma latch_writeBits (g : Statics) (regAddr bitStart len v u0 b : Z)
    (ph : latch_phase) (tr : list Event) :
  0 <= regAddr <= 127 -> 0 <= b <= 255 ->
  exists tr',
    writeBits g regAddr bitStart len v u0 (mkBus (mkLatch b ph) tr)
    = (Ok true, mkBus (mkLatch (merge_bits bitStart len v b) AwaitAddress) tr').
Proof.
  intros Ha Hb. unfold writeBits, writeBits_over.
  erewrite bind_ok by (apply latch_readByte; assumption).
  cbv beta iota. change (negb (1 =? 0)) with true. cbv iota.
  rewrite latch_writeByte, merge_bits_byte by assumption. eauto.
Qed.

Lemma latch_writeBit (g : Statics) (regAddr bitNum v u0 b : Z)
    (ph : latch_phase) (tr : list Event) :
  0 <= regAddr <= 127 -> 0 <= b <= 255 ->
  exists tr',
    writeBit g regAddr bitNum v u0 (mkBus (mkLatch b ph) tr)
    = (Ok true, mkBus (mkLatch (set_or_clear bitNum v b) AwaitAddress) tr').
Proof.
  intros Ha Hb. unfold writeBit, writeBit_over.
  erewrite bind_ok by (apply latch_readByte; assumption).
  cbv beta iota. rewrite latch_writeByte by assumption.
  fold (set_or_clear bitNum v b).
  replace (wrap8 (set_or_clear bitNum v b)) with (set_or_clear bitNum v b)
    by (unfold set_or_clear; now rewrite wrap8_idem).
  eauto.
Qed.

Lemma latch_readBits (g : Statics) (regAddr bitStart len d0 u0 b : Z)
    (ph : latch_phase) (tr : list Event) :
  0 <= regAddr <= 127 -> 0 <= b <= 255 ->
  fst (readBits g regAddr bitStart len d0 u0 (mkBus (mkLatch b ph) tr))
  = Ok (1, extract_bits bitStart len b).
Proof.
  intros Ha Hb. unfold readBits.
  erewrite bind_ok by (apply latch_readByte; assumption).
  reflexivity.
Qed.

Lemma merge_bits_range (bitStart len v b : Z) :
  0 <= merge_bits bitStart len v b <= 255.
Proof.
  pose proof (wrap8_range (merge_bits bitStart len v b)) as H.
  rewrite merge_bits_byte in H. lia.
Qed.

(** X11.  Two [writeBits] of the same field one after the other leave the
    register exactly as the second alone would: the field holds the second
    value and the other bits are those before the first write. *)
Theorem writeBits_last_write_wins (g : Statics)
    (regAddr bitStart len v1 v2 b u0 u1 u2 d0 : Z) (ph : latch_phase)
    (tr : list Event) :
  0 <= regAddr <= 127 -> 1 <= len <= 8 -> len - 1 <= bitStart <= 7 ->
  0 <= b <= 255 ->
  let st := mkBus (mkLatch b ph) tr in
  let st1 := snd (writeBits g regAddr bitStart len v1 u0 st) in
  let st2 := snd (writeBits g regAddr bitStart len v2 u1 st1) in
  latch_reg (device st2)
  = latch_reg (device (snd (writeBits g regAddr bitStart len v2 u0 st)))
  /\ fst (readBits g regAddr bitStart len d0 u2 st2) = Ok (1, v2 mod 2 ^ len).
Proof.
  intros Ha Hl Hs Hb st st1 st2.
  destruct (latch_writeBits g regAddr bitStart len v1 u0 b ph tr Ha Hb)
    as [tr1 E1].
  destruct (latch_writeBits g regAddr bitStart len v2 u0 b ph tr Ha Hb)
    as [tr2' E2'].
  subst st2 st1 st. rewrite E1, E2'. cbn [snd].
  destruct (latch_writeBits g regAddr bitStart len v2 u1
              (merge_bits bitStart len v1 b) AwaitAddress tr1 Ha
              (merge_bits_range _ _ _ _)) as [tr2 E2].
  rewrite E2. cbn [snd device latch_reg].
  rewrite merge_bits_same_field by lia. split; [reflexivity|].
  rewrite latch_readBits by (assumption || apply merge_bits_range).
  now rewrite extract_merge_bits.
Qed.

(** X12.  [writeBits] on two fields that do not overlap can be done in
    either order: the register ends the same, and each field then reads
    back the value written to it. *)
Theorem writeBits_on_disjoint_fields (g : Statics)
    (regAddr bs1 len1 v1 bs2 len2 v2 b u0 u1 u2 d0 : Z) (ph : latch_phase)
    (tr : list Event) :
  0 <= regAddr <= 127 -> 0 <= b <= 255 ->
  1 <= len1 <= 8 -> len1 - 1 <= bs1 <= 7 ->
  1 <= len2 <= 8 -> len2 - 1 <= bs2 <= 7 ->
  bs1 < bs2 - len2 + 1 ->
  let st := mkBus (mkLatch b ph) tr in
  let st12 := snd (writeBits g regAddr bs2 len2 v2 u1
                     (snd (writeBits g regAddr bs1 len1 v1 u0 st))) in
  let st21 := snd (writeBits g regAddr bs1 len1 v1 u1
                     (snd (writeBits g regAddr bs2 len2 v2 u0 st))) in
  latch_reg (device st12) = latch_reg (device st21)
  /\ fst (readBits g regAddr bs1 len1 d0 u2 st12) = Ok (1, v1 mod 2 ^ len1)
  /\ fst (readBits g regAddr bs2 len2 d0 u2 st12) = Ok (1, v2 mod 2 ^ len2).
Proof.
  intros Ha Hb Hl1 Hs1 Hl2 Hs2 Hd st st12 st21. subst st12 st21 st.
  destruct (latch_writeBits g regAddr bs1 len1 v1 u0 b ph tr Ha Hb)
    as [t1 E1].
  destruct (latch_writeBits g regAddr bs2 len2 v2 u0 b ph tr Ha Hb)
    as [t2 E2].
  rewrite E1, E2. cbn [snd].
  destruct (latch_writeBits g regAddr bs2 len2 v2 u1
              (merge_bits bs1 len1 v1 b) AwaitAddress t1 Ha
              (merge_bits_range _ _ _ _)) as [t12 E12].
  destruct (latch_writeBits g regAddr bs1 len1 v1 u1
              (merge_bits bs2 len2 v2 b) AwaitAddress t2 Ha
              (merge_bits_range _ _ _ _)) as [t21 E21].
  rewrite E12, E21. cbn [snd device latch_reg].
  split; [apply merge_bits_disjoint; lia|].
  rewrite !latch_readBits by (assumption || apply merge_bits_range).
  split.
  - rewrite extract_other_field by lia. now rewrite extract_merge_bits.
  - now rewrite extract_merge_bits.
Qed.

(** X13.  After [writeBit] of the value [v] at [bitNum] (0..7), [readBit]
    at the same place yields [1 << bitNum] if [v] is not zero and 0 if it
    is, and the register keeps its other bits. *)
Theorem writeBit_readBit_round_trip (g : Statics)
    (regAddr bitNum v b u0 u1 : Z) (ph : latch_phase) (tr : list Event) :
  0 <= regAddr <= 127 -> 0 <= bitNum <= 7 -> 0 <= b <= 255 ->
  let st := mkBus (mkLatch b ph) tr in
  let st1 := snd (writeBit g regAddr bitNum v u0 st) in
  fst (writeBit g regAddr bitNum v u0 st) = Ok true
  /\ fst (readBit g regAddr bitNum u1 st1)
     = Ok (1, if to_bool v then 2 ^ bitNum else 0)
  /\ (forall i, 0 <= i -> i <> bitNum ->
        Z.testbit (latch_reg (device st1)) i = Z.testbit b i).
Proof.
  intros Ha Hn Hb st st1. subst st1 st.
  destruct (latch_writeBit g regAddr bitNum v u0 b ph tr Ha Hb) as [t1 E1].
  rewrite E1. cbn [fst snd device latch_reg].
  assert (R : 0 <= set_or_clear bitNum v b <= 255).
  { pose proof (wrap8_range (if to_bool v then Z.lor b (Z.shiftl 1 bitNum)
                             else Z.land b (Z.lnot (Z.shiftl 1 bitNum)))).
    unfold set_or_clear. lia. }
  split; [reflexivity|split].
  - unfold readBit.
    erewrite bind_ok by (apply latch_readByte; assumption).
    unfold ret. cbn [fst]. rewrite masked_bit by lia.
    rewrite set_or_clear_bits by lia.
    rewrite Z.eqb_refl. destruct (Z.ltb_spec bitNum 8); [|lia].
    reflexivity.
  - intros i Hi Hne. rewrite set_or_clear_bits by lia.
    destruct (Z.eqb_spec i bitNum); [contradiction|].
    rewrite <- (wrap8_small b) at 2 by lia. now rewrite wrap8_bits.
Qed.

End LatchSequences.

(** * Words on the 16-bit device *)

Lemma wrap16_bits (z i : Z) :
  Z.testbit (wrap16 z) i = (i <? 16) && Z.testbit z i.
Proof.
  unfold wrap16. change 65536 with (2 ^ 16). apply Z.testbit_mod_pow2. lia.
Qed.

Lemma wrap16_small (z : Z) : 0 <= z < 65536 -> wrap16 z = z.
Proof. intros H. unfold wrap16. apply Z.mod_small. exact H. Qed.

Lemma wrap16_range (z : Z) : 0 <= wrap16 z < 65536.
Proof. unfold wrap16. apply Z.mod_pos_bound. lia. Qed.

(** The two bytes [writeWords] sends for a word, put back together. *)
Lemma word_of_its_bytes (x : Z) :
  Z.lor (Z.shiftl (wrap8 (Z.shiftr x 8)) 8) (wrap8 x) = wrap16 x.
Proof.
  apply Z.bits_inj'. intros i Hi.
  rewrite Z.lor_spec, Z.shiftl_spec, wrap16_bits, !wrap8_bits by lia.
  destruct (Z.ltb_spec i 8) as [Hlt|Hge].
  - rewrite (Z.testbit_neg_r _ (i - 8)) by lia.
    destruct (Z.ltb_spec i 16); [|lia].
    now rewrite andb_false_r.
  - rewrite Z.shiftr_spec by lia. replace (i - 8 + 8) with i by lia.
    destruct (Z.ltb_spec (i - 8) 8); destruct (Z.ltb_spec i 16);
      simpl; try lia; now rewrite ?orb_false_r.
Qed.

(** The word [readWords] makes of the two bytes the device answers. *)
Lemma assemble_its_bytes (w : Z) :
  0 <= w < 65536 ->
  assemble (wrap8 (Z.shiftr w 8)) (wrap8 (w mod 256)) = w.
Proof.
  intros Hw. unfold assemble. fold (wrap8 w). rewrite wrap8_idem.
  rewrite <- (wrap16_small w) at 3 by lia.
  apply Z.bits_inj'. intros i Hi.
  rewrite !wrap16_bits, Z.lor_spec, wrap16_bits, Z.shiftl_spec by lia.
  rewrite !wrap8_bits.
  destruct (Z.ltb_spec i 8) as [Hlt|Hge].
  - rewrite (Z.testbit_neg_r _ (i - 8)) by lia.
    now rewrite !andb_false_r.
  - rewrite Z.shiftr_spec by lia. replace (i - 8 + 8) with i by lia.
    destruct (Z.ltb_spec (i - 8) 8); destruct (Z.ltb_spec i 16);
      simpl; try lia; now rewrite ?orb_false_r.
Qed.

Lemma merge_bitsW_bits (bitStart len v w i : Z) :
  0 <= len -> 0 <= bitStart - len + 1 -> 0 <= i ->
  Z.testbit (merge_bitsW bitStart len v w) i
  = (i <? 16)
    && (if (bitStart - len + 1 <=? i) && (i <=? bitStart)
        then Z.testbit v (i - (bitStart - len + 1))
        else Z.testbit w i).
Proof.
  intros Hl Hs Hi. unfold merge_bitsW.
  rewrite !wrap16_bits, Z.lor_spec, !wrap16_bits, !Z.land_spec, !wrap16_bits.
  rewrite Z.lnot_spec, wrap16_bits, Z.shiftl_spec, field_mask_bits by lia.
  compare_cases; simpl; try lia;
    rewrite ?andb_true_r, ?andb_false_r, ?orb_false_r; reflexivity.
Qed.

Lemma extract_merge_bitsW (bitStart len v w : Z) :
  1 <= len <= 16 -> len - 1 <= bitStart <= 15 ->
  extract_bitsW bitStart len (merge_bitsW bitStart len v w) = v mod 2 ^ len.
Proof.
  intros Hl Hb. unfold extract_bitsW. apply Z.bits_inj'. intros i Hi.
  rewrite wrap16_bits, Z.shiftr_spec, wrap16_bits, Z.land_spec by lia.
  rewrite merge_bitsW_bits, wrap16_bits, field_mask_bits by lia.
  rewrite Z.testbit_mod_pow2 by lia.
  replace (i + (bitStart - len + 1) - (bitStart - len + 1)) with i by lia.
  compare_cases; simpl; try lia;
    rewrite ?andb_true_r, ?andb_false_r; reflexivity.
Qed.

Lemma merge_bitsW_word (bitStart len v w : Z) :
  wrap16 (merge_bitsW bitStart len v w) = merge_bitsW bitStart len v w.
Proof. unfold merge_bitsW. apply wrap16_small, wrap16_range. Qed.

Section WordDevice.

Context {W : Wiring}.
#[local] Existing Instance word_device.

Hypothesis msbfirst_is_1 : MSBFIRST = 1.
Hypothesis lsbfirst_is_0 : LSBFIRST = 0.

Lemma word_writeWord (g : Statics) (regAddr x r : Z) (ph : word_phase)
    (tr : list Event) :
  0 <= regAddr <= 127 ->
  exists tr',
    writeWord g regAddr x (mkBus (mkWordLatch r ph) tr)
    = (Ok true, mkBus (mkWordLatch (wrap16 x) WAwait) tr').
Proof.
  intros Ha. rewrite writeWord_run.
  unfold framed, SPI_beginTransaction, SPI_endTransaction, emit,
    digitalWrite, clock_out, SPI_transfer.
  cbn -[Z.testbit wrap8 Z.lor Z.shiftl Z.shiftr].
  rewrite write_address_bit7 by assumption.
  cbn -[Z.testbit wrap8 Z.lor Z.shiftl Z.shiftr].
  rewrite !wrap8_idem, word_of_its_bytes. eauto.
Qed.

Lemma word_readWord (g : Statics) (regAddr u0 r : Z) (ph : word_phase)
    (tr : list Event) :
  to_bool (dataOrder g) = true ->
  0 <= regAddr <= 127 -> 0 <= r < 65536 ->
  exists tr',
    readWord g regAddr u0 (mkBus (mkWordLatch r ph) tr)
    = (Ok (1, r), mkBus (mkWordLatch r WAwait) tr').
Proof.
  intros Ho Ha Hr. unfold readWord.
  pose proof (readWords_run_high msbfirst_is_1 lsbfirst_is_0 g regAddr 1 [u0]
                (mkBus (mkWordLatch r ph) tr) Ho ltac:(lia)
                ltac:(simpl; lia)) as R.
  unfold reads_high_byte_first in R. cbv zeta in R.
  change (repeat 0 (2 * Z.to_nat 1)) with [0; 0] in R.
  rewrite (bind_ok _ _ _ _ _ R). clear R.
  unfold framed, SPI_beginTransaction, SPI_endTransaction, emit,
    digitalWrite, SPI_transfer, ret.
  cbn -[Z.testbit wrap8 Z.lor Z.shiftl Z.shiftr assemble Z.modulo].
  rewrite read_address_bit7 by assumption.
  cbn -[Z.testbit wrap8 Z.lor Z.shiftl Z.shiftr assemble Z.modulo].
  rewrite assemble_its_bytes by lia. eauto.
Qed.

(** X14.  On a handle declared MSB-first, against a device that holds a
    16-bit register and moves it high byte first, [readWord] after
    [writeWord] of a word [w] returns [w]: the two bytes [writeWords] sends
    and the two bytes [readWords] puts together are the same two, in the
    same order. *)
Theorem writeWord_readWord_round_trip (g : Statics) (regAddr w r u0 : Z)
    (ph : word_phase) (tr : list Event) :
  dataOrder g = MSBFIRST ->
  0 <= regAddr <= 127 -> 0 <= w <= 65535 ->
  let st := mkBus (mkWordLatch r ph) tr in
  let st1 := snd (writeWord g regAddr w st) in
  fst (writeWord g regAddr w st) = Ok true
  /\ word_reg (device st1) = w
  /\ fst (readWord g regAddr u0 st1) = Ok (1, w).
Proof.
  intros Ho Ha Hw st st1. subst st1 st.
  assert (Hb : to_bool (dataOrder g) = true)
    by (rewrite Ho, msbfirst_is_1; reflexivity).
  destruct (word_writeWord g regAddr w r ph tr Ha) as [t1 E1].
  rewrite E1. cbn [fst snd device word_reg].
  rewrite wrap16_small by lia.
  destruct (word_readWord g regAddr u0 w WAwait t1 Hb Ha ltac:(lia))
    as [t2 E2].
  rewrite E2. repeat split.
Qed.

(** X15.  The same round trip for a field of a word: on that device and an
    MSB-first handle, [readBitsW] after [writeBitsW] returns the value
    written, reduced to [len] bits, and the word written has the bits of the
    old word outside the field.  Stated for fields of at most 14 bits below
    bit 15, for which [1 << length] and the mask fit an [int] of 16 bits. *)
Theorem writeBitsW_readBitsW_round_trip (g : Statics)
    (regAddr bitStart len v r u0 u1 d0 : Z) (ph : word_phase)
    (tr : list Event) :
  dataOrder g = MSBFIRST ->
  0 <= regAddr <= 127 -> 1 <= len <= 14 -> len - 1 <= bitStart <= 14 ->
  0 <= r <= 65535 ->
  let st := mkBus (mkWordLatch r ph) tr in
  let st1 := snd (writeBitsW g regAddr bitStart len v u0 st) in
  fst (writeBitsW g regAddr bitStart len v u0 st) = Ok true
  /\ fst (readBitsW g regAddr bitStart len d0 u1 st1)
     = Ok (1, v mod 2 ^ len)
  /\ (forall i, 0 <= i -> ~ (bitStart - len + 1 <= i <= bitStart) ->
        Z.testbit (word_reg (device st1)) i = Z.testbit r i).
Proof.
  intros Ho Ha Hl Hs Hr st st1. subst st1 st.
  assert (Hb : to_bool (dataOrder g) = true)
    by (rewrite Ho, msbfirst_is_1; reflexivity).
  destruct (word_readWord g regAddr u0 r ph tr Hb Ha ltac:(lia)) as [t0 E0].
  destruct (word_writeWord g regAddr (merge_bitsW bitStart len v r) r
              WAwait t0 Ha) as [t1 E1].
  assert (E : writeBitsW g regAddr bitStart len v u0
                (mkBus (mkWordLatch r ph) tr)
              = (Ok true,
                 mkBus (mkWordLatch (merge_bitsW bitStart len v r) WAwait) t1)).
  { unfold writeBitsW, writeBitsW_over. rewrite (bind_ok _ _ _ _ _ E0).
    change (negb (1 =? 0)) with true. cbv iota.
    rewrite E1. now rewrite merge_bitsW_word. }
  rewrite E. cbn [fst snd device word_reg].
  split; [reflexivity|split].
  - pose proof (wrap16_range (merge_bitsW bitStart len v r)) as Hm.
    rewrite merge_bitsW_word in Hm.
    destruct (word_readWord g regAddr u1 (merge_bitsW bitStart len v r)
                WAwait t1 Hb Ha Hm) as [t2 E2].
    unfold readBitsW. rewrite (bind_ok _ _ _ _ _ E2).
    change (negb (wrap8 1 =? 0)) with true. cbv iota. unfold ret.
    cbn [fst]. rewrite extract_merge_bitsW by lia. reflexivity.
  - intros i Hi Hout. rewrite merge_bitsW_bits by lia.
    rewrite <- (wrap16_small r) at 2 by lia. rewrite wrap16_bits.
    compare_cases; simpl; try lia; reflexivity.
Qed.

End WordDevice.

(** * Single bits of a word, and the constructor *)

Lemma masked_bitW (w n : Z) :
  0 <= n <= 15 ->
  wrap16 (Z.land w (Z.shiftl 1 n)) = if Z.testbit w n then 2 ^ n else 0.
Proof.
  intros Hn. rewrite Z.shiftl_1_l. apply Z.bits_inj'. intros i Hi.
  rewrite wrap16_bits, Z.land_spec, Z.pow2_bits_eqb by lia.
  destruct (Z.eqb_spec n i) as [->|Hne].
  - destruct (Z.testbit w i) eqn:Eb.
    + rewrite Z.pow2_bits_true by lia.
      destruct (Z.ltb_spec i 16); [reflexivity | lia].
    + rewrite Z.bits_0. now rewrite andb_false_r.
  - rewrite andb_false_r, andb_false_r.
    destruct (Z.testbit w n).
    + rewrite Z.pow2_bits_false by lia. reflexivity.
    + now rewrite Z.bits_0.
Qed.

Lemma set_or_clearW_bits (n v w i : Z) :
  0 <= n -> 0 <= i ->
  Z.testbit (set_or_clearW n v w) i
  = (i <? 16) && (if i =? n then to_bool v else Z.testbit w i).
Proof.
  intros Hn Hi. unfold set_or_clearW. rewrite wrap16_bits, Z.shiftl_1_l.
  destruct (to_bool v).
  - rewrite Z.lor_spec, Z.pow2_bits_eqb by lia. rewrite (Z.eqb_sym n i).
    destruct (i =? n); rewrite ?orb_true_r, ?orb_false_r; reflexivity.
  - rewrite Z.land_spec, Z.lnot_spec, Z.pow2_bits_eqb by lia.
    rewrite (Z.eqb_sym n i).
    destruct (i =? n); simpl; rewrite ?andb_true_r, ?andb_false_r;
      reflexivity.
Qed.

Section WordBit.

Context {W : Wiring}.
#[local] Existing Instance word_device.

Hypothesis msbfirst_is_1 : MSBFIRST = 1.
Hypothesis lsbfirst_is_0 : LSBFIRST = 0.

(** X16.  On the 16-bit device and an MSB-first handle, [readBitW] after
    [writeBitW] of the value [v] at [bitNum] yields [1 << bitNum] if [v] is
    not zero and 0 if it is, and the word keeps its other bits.  Stated for
    [bitNum] in 0..14, for which [1 << bitNum] fits an [int] of 16 bits. *)
Theorem writeBitW_readBitW_round_trip (g : Statics)
    (regAddr bitNum v r u0 u1 : Z) (ph : word_phase) (tr : list Event) :
  dataOrder g = MSBFIRST ->
  0 <= regAddr <= 127 -> 0 <= bitNum <= 14 -> 0 <= r <= 65535 ->
  let st := mkBus (mkWordLatch r ph) tr in
  let st1 := snd (writeBitW g regAddr bitNum v u0 st) in
  fst (writeBitW g regAddr bitNum v u0 st) = Ok true
  /\ fst (readBitW g regAddr bitNum u1 st1)
     = Ok (1, if to_bool v then 2 ^ bitNum else 0)
  /\ (forall i, 0 <= i -> i <> bitNum ->
        Z.testbit (word_reg (device st1)) i = Z.testbit r i).
Proof.
  intros Ho Ha Hn Hr st st1. subst st1 st.
  assert (Hb : to_bool (dataOrder g) = true)
    by (rewrite Ho, msbfirst_is_1; reflexivity).
  destruct (word_readWord msbfirst_is_1 lsbfirst_is_0 g regAddr u0 r ph tr
              Hb Ha ltac:(lia)) as [t0 E0].
  destruct (word_writeWord g regAddr (set_or_clearW bitNum v r) r
              WAwait t0 Ha) as [t1 E1].
  assert (Hm : 0 <= set_or_clearW bitNum v r < 65536)
    by (unfold set_or_clearW; apply wrap16_range).
  assert (E : writeBitW g regAddr bitNum v u0 (mkBus (mkWordLatch r ph) tr)
              = (Ok true,
                 mkBus (mkWordLatch (set_or_clearW bitNum v r) WAwait) t1)).
  { unfold writeBitW, writeBitW_over. rewrite (bind_ok _ _ _ _ _ E0).
    fold (set_or_clearW bitNum v r). rewrite E1.
    now rewrite wrap16_small by exact Hm. }
  rewrite E. cbn [fst snd device word_reg].
  split; [reflexivity|split].
  - destruct (word_readWord msbfirst_is_1 lsbfirst_is_0 g regAddr u1
                (set_or_clearW bitNum v r) WAwait t1 Hb Ha Hm) as [t2 E2].
    unfold readBitW. rewrite (bind_ok _ _ _ _ _ E2). unfold ret. cbn [fst].
    rewrite masked_bitW by lia. rewrite set_or_clearW_bits by lia.
    rewrite Z.eqb_refl. destruct (Z.ltb_spec bitNum 16); [|lia].
    reflexivity.
  - intros i Hi Hne. rewrite set_or_clearW_bits by lia.
    destruct (Z.eqb_spec i bitNum); [contradiction|].
    rewrite <- (wrap16_small r) at 2 by lia. now rewrite wrap16_bits.
Qed.

End WordBit.

Section FirstTransaction.

Context {W : Wiring} {D : Device}.

(** X17.  The constructor sets the slave pin (its [int8_t] argument taken
    as a [uint8_t]) to output and starts the SPI peripheral; it does not
    write the pin and does not touch the device.  The first level written to
    the pin is the LOW that opens the first transaction, which drives the
    pin the constructor stored. *)
Theorem constructor_then_first_transaction (slavePin bitOrder regAddr x : Z)
    (s : SPISettings) (g : Statics) (st : Bus) :
  exists g' st',
    SPIdev_ctor slavePin s bitOrder g st = (Ok g', st')
    /\ slave g' = slavePin mod 256
    /\ device st' = device st
    /\ emitted (SPIdev_ctor slavePin s bitOrder g) st
       = [PinMode (slavePin mod 256) OUTPUT; SPIBegin]
    /\ emitted (writeByte g' regAddr x) st'
       = [BeginTransaction (settings g); DigitalWrite (slavePin mod 256) LOW]
         ++ exchange [regAddr; x] (dev_pin (slavePin mod 256) LOW (device st))
         ++ [DigitalWrite (slavePin mod 256) HIGH; EndTransaction].
Proof.
  eexists. eexists. split; [apply SPIdev_ctor_run|].
  cbn [slave device]. repeat split.
  - apply emitted_intro. now rewrite SPIdev_ctor_run.
  - apply emitted_intro. rewrite writeByte_run. cbn [snd].
    now rewrite framed_log.
Qed.

End FirstTransaction.

(** ** The further statements at sample inputs *)

Lemma readBytes_fills_the_buffer_witness :
  0 <= 3 <= 127 /\ 3 <= Z.of_nat (length [7; 7; 7; 9])
  /\ fst (readBytes sample_msb 0x20 3 [7; 7; 7; 9] counting_bus)
     = Ok (3, [2; 3; 4; 9]).
Proof.
  split; [lia|]. split; [simpl; lia|].
  exact (proj1 (readBytes_fills_the_buffer sample_msb 0x20 3 [7; 7; 7; 9]
                  counting_bus ltac:(lia) ltac:(simpl; lia))).
Defined.

Lemma writes_send_the_first_units_witness :
  0 <= 2 <= 255 /\ 2 <= Z.of_nat (length [0x11; 0x22; 0x33])
  /\ fst (writeWords sample_msb 0x20 2 [0x11; 0x22; 0x33] counting_bus)
     = Ok true
  /\ sent (emitted (writeBytes sample_msb 0x20 2 [0x11; 0x22; 0x33])
             counting_bus)
     = [0x20; 0x11; 0x22].
Proof.
  split; [lia|]. split; [simpl; lia|].
  destruct (writes_send_the_first_units sample_msb 0x20 2 [0x11; 0x22; 0x33]
              counting_bus ltac:(lia) ltac:(simpl; lia))
    as (_ & Hw & _ & Hs & _).
  split; [exact Hw | exact Hs].
Defined.

Lemma readWords_lsbfirst_run_witness :
  @MSBFIRST avr = 1 /\ @LSBFIRST avr = 0
  /\ dataOrder sample_lsb = @LSBFIRST avr
  /\ 1 <= 2 <= 127 /\ 2 <= Z.of_nat (length [0x0100; 0; 9])
  /\ fst (readWords sample_lsb 5 2 [0x0100; 0; 9] counting_bus)
     = Ok (2, [0x0102; 0x0304; 9]).
Proof.
  split; [reflexivity|]. split; [reflexivity|]. split; [reflexivity|].
  split; [lia|]. split; [simpl; lia|].
  exact (proj1 (readWords_lsbfirst_run (W := avr) (D := counting_device)
                  eq_refl eq_refl sample_lsb 5 2 [0x0100; 0; 9] counting_bus
                  eq_refl ltac:(lia) ltac:(simpl; lia))).
Defined.

Lemma readWords_nonzero_order_reads_high_byte_first_witness :
  @MSBFIRST avr = 1 /\ @LSBFIRST avr = 0
  /\ dataOrder (@mkStatics avr 10 2 (4000000, 1, 0) 0) <> 0
  /\ 0 <= 2 <= 127 /\ 2 <= Z.of_nat (length [0; 0; 9])
  /\ fst (readWords (@mkStatics avr 10 2 (4000000, 1, 0) 0) 5 2 [0; 0; 9]
            counting_bus)
     = Ok (2, [0x0203; 0x0405; 9]).
Proof.
  split; [reflexivity|]. split; [reflexivity|].
  split; [simpl; lia|]. split; [lia|]. split; [simpl; lia|].
  exact (proj2 (readWords_nonzero_order_reads_high_byte_first
                  (W := avr) (D := counting_device) eq_refl eq_refl
                  (@mkStatics avr 10 2 (4000000, 1, 0) 0) 5 2 [0; 0; 9]
                  counting_bus ltac:(simpl; lia) ltac:(lia)
                  ltac:(simpl; lia))).
Defined.

Lemma read_modify_write_reports_success_witness :
  @MSBFIRST avr = 1 /\ @LSBFIRST avr = 0
  /\ fst (writeBitsW sample_lsb 0x10 12 3 2 0 counting_bus) = Ok true.
Proof.
  split; [reflexivity|]. split; [reflexivity|].
  destruct (read_modify_write_reports_success (W := avr)
              (D := counting_device) eq_refl eq_refl sample_lsb
              0x10 5 12 3 2 0 counting_bus)
    as (_ & _ & _ & _ & _ & H).
  exact H.
Defined.

Lemma readBit_yields_the_masked_bit_witness :
  0 <= 3 <= 7
  /\ readBit sample_msb 0x20 3 0 (latch_bus 0x08)
     = (Ok (1, 8), framed sample_msb [Z.lor 0x20 READ; 0] (latch_bus 0x08)).
Proof.
  split; [lia|].
  exact (readBit_yields_the_masked_bit sample_msb 0x20 3 0 (latch_bus 0x08)
           ltac:(lia)).
Defined.

Lemma readBits_yields_the_field_witness :
  1 <= 3 <= 8 /\ 3 - 1 <= 4 <= 7
  /\ fst (readBits sample_msb 0x20 4 3 0 0 (latch_bus 0x69)) = Ok (1, 2).
Proof.
  split; [lia|]. split; [lia|].
  exact (f_equal fst
           (readBits_yields_the_field sample_msb 0x20 4 3 0 0
              (latch_bus 0x69) ltac:(lia) ltac:(lia))).
Defined.

Lemma writeBit_is_writeBits_of_one_bit_witness :
  0 <= 5 <= 7
  /\ writeBit sample_msb 0x10 5 7 0 (latch_bus 0)
     = writeBits sample_msb 0x10 5 1 1 0 (latch_bus 0).
Proof.
  split; [lia|].
  exact (writeBit_is_writeBits_of_one_bit sample_msb 0x10 5 7 0
           (latch_bus 0) ltac:(lia)).
Defined.

Lemma writeBits_last_write_wins_witness :
  0 <= 0x10 <= 127 /\ 1 <= 3 <= 8 /\ 3 - 1 <= 4 <= 7 /\ 0 <= 0xAF <= 255
  /\ fst (readBits sample_msb 0x10 4 3 0 0
            (snd (writeBits sample_msb 0x10 4 3 5 0
                    (snd (writeBits sample_msb 0x10 4 3 2 0
                            (latch_bus 0xAF))))))
     = Ok (1, 5 mod 2 ^ 3).
Proof.
  repeat (split; [lia|]).
  exact (proj2 (writeBits_last_write_wins (W := avr) sample_msb
                  0x10 4 3 2 5 0xAF 0 0 0 0 AwaitAddress []
                  ltac:(lia) ltac:(lia) ltac:(lia) ltac:(lia))).
Defined.

Lemma writeBits_on_disjoint_fields_witness :
  0 <= 0x10 <= 127 /\ 0 <= 0xAF <= 255
  /\ 1 <= 2 <= 8 /\ 2 - 1 <= 1 <= 7 /\ 1 <= 3 <= 8 /\ 3 - 1 <= 6 <= 7
  /\ 1 < 6 - 3 + 1
  /\ latch_reg (device
       (snd (writeBits sample_msb 0x10 6 3 5 0
               (snd (writeBits sample_msb 0x10 1 2 1 0 (latch_bus 0xAF))))))
     = latch_reg (device
         (snd (writeBits sample_msb 0x10 1 2 1 0
                 (snd (writeBits sample_msb 0x10 6 3 5 0 (latch_bus 0xAF)))))).
Proof.
  repeat (split; [lia|]).
  exact (proj1 (writeBits_on_disjoint_fields (W := avr) sample_msb
                  0x10 1 2 1 6 3 5 0xAF 0 0 0 0 AwaitAddress []
                  ltac:(lia) ltac:(lia) ltac:(lia) ltac:(lia) ltac:(lia)
                  ltac:(lia) ltac:(lia))).
Defined.

Lemma writeBit_readBit_round_trip_witness :
  0 <= 0x10 <= 127 /\ 0 <= 5 <= 7 /\ 0 <= 0 <= 255
  /\ fst (readBit sample_msb 0x10 5 0
            (snd (writeBit sample_msb 0x10 5 1 0 (latch_bus 0))))
     = Ok (1, 2 ^ 5).
Proof.
  repeat (split; [lia|]).
  exact (proj1 (proj2 (writeBit_readBit_round_trip (W := avr) sample_msb
                         0x10 5 1 0 0 0 AwaitAddress []
                         ltac:(lia) ltac:(lia) ltac:(lia)))).
Defined.

Lemma writeWord_readWord_round_trip_witness :
  @MSBFIRST avr = 1 /\ @LSBFIRST avr = 0
  /\ dataOrder sample_msb = @MSBFIRST avr
  /\ 0 <= 0x05 <= 127 /\ 0 <= 0xABCD <= 65535
  /\ fst (readWord sample_msb 0x05 0
            (snd (writeWord sample_msb 0x05 0xABCD (word_bus 0))))
     = Ok (1, 0xABCD).
Proof.
  split; [reflexivity|]. split; [reflexivity|]. split; [reflexivity|].
  split; [lia|]. split; [lia|].
  exact (proj2 (proj2 (writeWord_readWord_round_trip (W := avr)
                         eq_refl eq_refl sample_msb 0x05 0xABCD 0 0
                         WAwait [] eq_refl ltac:(lia) ltac:(lia)))).
Defined.

Lemma writeBitsW_readBitsW_round_trip_witness :
  @MSBFIRST avr = 1 /\ @LSBFIRST avr = 0
  /\ dataOrder sample_msb = @MSBFIRST avr
  /\ 0 <= 0x05 <= 127 /\ 1 <= 3 <= 14 /\ 3 - 1 <= 12 <= 14
  /\ 0 <= 0xAF96 <= 65535
  /\ fst (readBitsW sample_msb 0x05 12 3 0 0
            (snd (writeBitsW sample_msb 0x05 12 3 2 0 (word_bus 0xAF96))))
     = Ok (1, 2 mod 2 ^ 3).
Proof.
  split; [reflexivity|]. split; [reflexivity|]. split; [reflexivity|].
  repeat (split; [lia|]).
  exact (proj1 (proj2 (writeBitsW_readBitsW_round_trip (W := avr)
                         eq_refl eq_refl sample_msb 0x05 12 3 2 0xAF96 0 0 0
                         WAwait [] eq_refl ltac:(lia) ltac:(lia) ltac:(lia)
                         ltac:(lia)))).
Defined.

Lemma writeBitW_readBitW_round_trip_witness :
  @MSBFIRST avr = 1 /\ @LSBFIRST avr = 0
  /\ dataOrder sample_msb = @MSBFIRST avr
  /\ 0 <= 0x05 <= 127 /\ 0 <= 9 <= 14 /\ 0 <= 0 <= 65535
  /\ fst (readBitW sample_msb 0x05 9 0
            (snd (writeBitW sample_msb 0x05 9 1 0 (word_bus 0))))
     = Ok (1, 2 ^ 9).
Proof.
  split; [reflexivity|]. split; [reflexivity|]. split; [reflexivity|].
  repeat (split; [lia|]).
  exact (proj1 (proj2 (writeBitW_readBitW_round_trip (W := avr)
                         eq_refl eq_refl sample_msb 0x05 9 1 0 0 0
                         WAwait [] eq_refl ltac:(lia) ltac:(lia)
                         ltac:(lia)))).
Defined.
